(** * Campus-network auto-login plugin: monitor loop, authenticator, prober

    A shallow embedding of [main.py] (class [Plugin]) and the properties of
    its monitoring state machine.

    Modelling conventions.
    - Python [str] is [string], the UTF-8 bytes of the text; [len] and
      slices count characters (code points), not bytes; [int] is [Z]; a
      [dict] whose iteration order is observable (the login parameters are
      URL-encoded in insertion order) is an association list with unique
      keys.
    - A coroutine is a function in the monad [M]: it threads a [world]
      (the heap of dict objects and the trace of observable effects) and
      either returns a value or raises an exception.
    - Whatever the surroundings decide (the configuration that [get_config]
      hands out, how the [ping] subprocess ends, what the login server
      answers, the clock, whether an awaited call returns or raises) is an
      explicit argument of the function that meets it.
    - The loop [while True] is run over a finite list of cycles, one entry
      per pass through its body; what is proved holds for every such
      list. *)

From Stdlib Require Import ZArith Lia Ascii List Bool.
From Stdlib Require String.
From stdpp Require Import base list strings pretty.
Import ListNotations.

Local Open Scope Z_scope.

(** ** Python built-ins used by the plugin *)

Module Py.

(** Exceptions.  [CancelledError] derives from [BaseException] only, so
    [except Exception] does not catch it; every other exception the plugin
    can meet derives from [Exception].  [Error kind msg] is an exception
    of class [kind] whose [str()] is [msg]. *)
Inductive exn : Type :=
| CancelledError
| TimeoutError
| Error (kind msg : string).

Definition is_Exception (e : exn) : bool :=
  match e with
  | CancelledError => false
  | _ => true
  end.

(** [str(e)] *)
Definition str_exn (e : exn) : string :=
  match e with
  | CancelledError => ""
  | TimeoutError => ""
  | Error _ msg => msg
  end.

Inductive outcome (A : Type) : Type :=
| Val (a : A)
| Exn (e : exn).
Arguments Val {A} a.
Arguments Exn {A} e.

(** The JSON scalars a configuration file can hold where the plugin
    expects an integer (fractional numbers are left out). *)
Inductive pyval : Type :=
| PyNone
| PyBool (b : bool)
| PyInt (z : Z)
| PyStr (s : string).

Definition str_truthy (s : string) : bool :=
  match s with
  | EmptyString => false
  | String _ _ => true
  end.

Definition truthy (v : pyval) : bool :=
  match v with
  | PyNone => false
  | PyBool b => b
  | PyInt z => negb (z =? 0)
  | PyStr s => str_truthy s
  end.

(** [x or d] *)
Definition or_else (x d : pyval) : pyval := if truthy x then x else d.

(** [s or d] on an optional string ([None] is falsy). *)
Definition str_or (s : option string) (d : string) : string :=
  match s with
  | Some s' => if str_truthy s' then s' else d
  | None => d
  end.

Definition is_space (a : ascii) : bool :=
  let n := nat_of_ascii a in
  (((9 <=? n) && (n <=? 13)) || (n =? 32))%nat.

Definition digit_of (a : ascii) : option Z :=
  let n := nat_of_ascii a in
  if ((48 <=? n) && (n <=? 57))%nat then Some (Z.of_nat (n - 48)) else None.

Fixpoint lstrip (s : string) : string :=
  match s with
  | String a s' => if is_space a then lstrip s' else s
  | EmptyString => EmptyString
  end.

(** Drops trailing white space (a space is kept when something other
    than a space follows it). *)
Fixpoint rstrip (s : string) : string :=
  match s with
  | String a s' =>
      match rstrip s' with
      | EmptyString => if is_space a then EmptyString else String a EmptyString
      | r => String a r
      end
  | EmptyString => EmptyString
  end.

(** Decimal digits, single underscores allowed between two digits. *)
Fixpoint digits (after_digit : bool) (acc : Z) (s : string) : option Z :=
  match s with
  | EmptyString => if after_digit then Some acc else None
  | String a s' =>
      match digit_of a with
      | Some d => digits true (10 * acc + d) s'
      | None =>
          if Ascii.eqb a "_"%char && after_digit then digits false acc s' else None
      end
  end.

(** Every character of [s] is an ASCII character. *)
Fixpoint is_ascii (s : string) : bool :=
  match s with
  | EmptyString => true
  | String a s' => (nat_of_ascii a <? 128)%nat && is_ascii s'
  end.

(** [int(s)] for a string, base 10: surrounding white space, an optional
    sign, digits.  This is Python's reading of an ASCII string; Python
    also reads the decimal digits and the spaces of other scripts, so for
    a string that is not [is_ascii] a [None] here says nothing about
    Python. *)
Definition int_of_str (s : string) : option Z :=
  match rstrip (lstrip s) with
  | String "-"%char r => option_map Z.opp (digits false 0 r)
  | String "+"%char r => digits false 0 r
  | r => digits false 0 r
  end.

(** [int(v)] *)
Definition int (v : pyval) : outcome Z :=
  match v with
  | PyInt z => Val z
  | PyBool b => Val (if b then 1 else 0)
  | PyStr s =>
      match int_of_str s with
      | Some z => Val z
      | None =>
          Exn (Error "ValueError"
                 ("invalid literal for int() with base 10: '" +:+ s +:+ "'"))
      end
  | PyNone =>
      Exn (Error "TypeError"
             "int() argument must be a string, a bytes-like object or a real number, not 'NoneType'")
  end.

(** [type(v).__name__] *)
Definition type_name (v : pyval) : string :=
  match v with
  | PyNone => "NoneType"
  | PyBool _ => "bool"
  | PyInt _ => "int"
  | PyStr _ => "str"
  end.

(** [str(n)] for an integer. *)
Definition str (z : Z) : string := pretty z.

(** [s.upper()], on the ASCII letters. *)
Definition upper_ascii (a : ascii) : ascii :=
  let n := nat_of_ascii a in
  if ((97 <=? n) && (n <=? 122))%nat then ascii_of_nat (n - 32) else a.

Fixpoint upper (s : string) : string :=
  match s with
  | EmptyString => EmptyString
  | String a s' => String (upper_ascii a) (upper s')
  end.

(** [v.upper()]: only a [str] has the method. *)
Definition str_upper (v : pyval) : outcome string :=
  match v with
  | PyStr s => Val (upper s)
  | _ =>
      Exn (Error "AttributeError"
             ("'" +:+ type_name v +:+ "' object has no attribute 'upper'"))
  end.

(** [hay] begins with [needle], byte for byte. *)
Fixpoint startswith (needle hay : string) : bool :=
  match needle, hay with
  | EmptyString, _ => true
  | String a needle', String b hay' => Ascii.eqb a b && startswith needle' hay'
  | String _ _, EmptyString => false
  end.

(** [needle in hay] on strings. *)
Fixpoint contains (needle hay : string) : bool :=
  startswith needle hay
  || match hay with
     | EmptyString => false
     | String _ hay' => contains needle hay'
     end.

(** A byte that continues a UTF-8 character begun earlier. *)
Definition is_continuation (a : ascii) : bool :=
  let n := nat_of_ascii a in
  ((128 <=? n) && (n <? 192))%nat.

(** [len(s)]: the characters of [s], one for every byte that begins one. *)
Fixpoint len (s : string) : nat :=
  match s with
  | EmptyString => O
  | String a s' => if is_continuation a then len s' else S (len s')
  end.

(** [s[:n]]: the first [n] characters, each with all its bytes. *)
Fixpoint take (n : nat) (s : string) : string :=
  match s with
  | EmptyString => EmptyString
  | String a s' =>
      if is_continuation a then String a (take n s')
      else
        match n with
        | O => EmptyString
        | S n' => String a (take n' s')
        end
  end.

(** A [dict] from [str] to [str], in insertion order. *)
Definition dict : Type := list (string * string).

Fixpoint get (k : string) (d : dict) : option string :=
  match d with
  | [] => None
  | (k', v) :: d' => if String.eqb k' k then Some v else get k d'
  end.

(** [d[k] = v]: an existing key keeps its place, a new one goes last. *)
Fixpoint set (k v : string) (d : dict) : dict :=
  match d with
  | [] => [(k, v)]
  | (k', v') :: d' =>
      if String.eqb k' k then (k', v) :: d' else (k', v') :: set k v d'
  end.

(** [urllib.parse.quote_plus] and [urllib.parse.urlencode]. *)
Definition hex_digit (n : nat) : ascii :=
  if (n <? 10)%nat then ascii_of_nat (48 + n) else ascii_of_nat (55 + n).

Definition always_safe (a : ascii) : bool :=
  let n := nat_of_ascii a in
  (((48 <=? n) && (n <=? 57)) || ((65 <=? n) && (n <=? 90))
   || ((97 <=? n) && (n <=? 122))
   || (n =? 95) || (n =? 46) || (n =? 45) || (n =? 126))%nat.

Fixpoint quote_plus (s : string) : string :=
  match s with
  | EmptyString => EmptyString
  | String a s' =>
      let n := nat_of_ascii a in
      if always_safe a then String a (quote_plus s')
      else if (n =? 32)%nat then String "+"%char (quote_plus s')
      else String "%"%char (String (hex_digit (n / 16))
                         (String (hex_digit (n mod 16)) (quote_plus s')))
  end.

Fixpoint join (sep : string) (l : list string) : string :=
  match l with
  | [] => ""
  | [x] => x
  | x :: l' => x +:+ sep +:+ join sep l'
  end.

Definition urlencode (d : dict) : string :=
  join "&" (map (fun kv => quote_plus (fst kv) +:+ "=" +:+ quote_plus (snd kv)) d).

End Py.

Import Py.

(** ** The world a coroutine runs in *)

(** Dict objects live in a heap and are passed around by reference. *)
Definition loc : Type := nat.

Inductive level : Type := Info | Warning | Err.

(** One [urllib.request.Request] handed to [urlopen]. *)
Record request : Type := {
  rq_method : string;
  rq_url : string;
  rq_data : option string;
  rq_headers : list (string * string);
  rq_timeout : Z
}.

(** The observable effects, in the order they happen: a log line, the
    entry into a coroutine ([Call]), a subprocess started with its command
    line and the deadline of the wait, a request handed to [urlopen], the
    two events emitted to the frontend, a sleep. *)
Inductive event : Type :=
| Log (lv : level) (msg : string)
| Call (fn : string)
| Exec (argv : list string) (deadline : Z)
| Urlopen (rq : request)
| EmitPing (host : string) (success : bool) (failures ts : Z)
| EmitLogin (success : bool) (status : Z) (message : string) (ts : Z)
| Sleep (secs : Z).

Record world : Type := {
  heap : list dict;
  trace : list event
}.

Definition M (A : Type) : Type := world -> world * outcome A.

Definition ret {A} (a : A) : M A := fun w => (w, Val a).

Definition raise {A} (e : exn) : M A := fun w => (w, Exn e).

Definition bind {A B} (m : M A) (k : A -> M B) : M B :=
  fun w =>
    match m w with
    | (w', Val a) => k a w'
    | (w', Exn e) => (w', Exn e)
    end.

Declare Scope py_scope.
Delimit Scope py_scope with py.
Notation "'let*' x := m 'in' k" := (bind m (fun x => k))
  (at level 10, x name, m at level 100, k at level 200) : py_scope.
Notation "m ;; k" := (bind m (fun _ => k))
  (at level 100, k at level 200, right associativity) : py_scope.
Local Open Scope py_scope.

(** [try: body except ...: handler]; [handler e = None] when no clause
    matches [e], which then propagates. *)
Definition try_except {A} (body : M A) (handler : exn -> option (M A)) : M A :=
  fun w =>
    match body w with
    | (w', Val a) => (w', Val a)
    | (w', Exn e) =>
        match handler e with
        | Some h => h w'
        | None => (w', Exn e)
        end
    end.

Definition tell (ev : event) : M unit :=
  fun w => ({| heap := heap w; trace := trace w ++ [ev] |}, Val tt).

Definition log (lv : level) (msg : string) : M unit := tell (Log lv msg).

(** The result of an awaited call that the surroundings decide. *)
Definition await {A} (r : outcome A) : M A :=
  match r with
  | Val a => ret a
  | Exn e => raise e
  end.

(** A fresh dict object holding [d]. *)
Definition alloc (d : dict) : M loc :=
  fun w => ({| heap := heap w ++ [d]; trace := trace w |}, Val (length (heap w))).

Definition deref (l : loc) : M dict :=
  fun w => (w, Val (default [] (heap w !! l))).

(** [obj[k] = v] on the dict object at [l]. *)
Definition setitem (l : loc) (k v : string) : M unit :=
  fun w =>
    ({| heap := alter (Py.set k v) l (heap w); trace := trace w |}, Val tt).

(** [await asyncio.sleep(secs)] *)
Definition sleep (secs : Z) (r : outcome unit) : M unit :=
  tell (Sleep secs) ;; await r.

(** ** Configuration *)

(** The dict [get_config] returns, by key; [None] is a missing key.  The
    login parameters are a dict object of their own. *)
Record Config : Type := {
  login_ip : option string;
  use_https : bool;
  login_path : option string;
  method : option pyval;
  params : option loc;
  ping_target : option string;
  ping_interval_sec : option pyval;
  ping_timeout_sec : option pyval;
  consecutive_failures_threshold : option pyval;
  backoff_attempt_sec : option pyval;
  success_check_string : option string
}.

Definition DEFAULT_LOGIN_IP : string := "221.1.64.43".
Definition DEFAULT_PING_TARGET : string := "8.8.8.8".
Definition HTTP_TIMEOUT : Z := 10.
Definition USER_AGENT : string := "Mozilla/5.0".

(** The ["params"] entry of [_default_config]. *)
Definition default_params : dict :=
  [ ("callback", "dr1003"); ("DDDDD", ""); ("upass", ""); ("0MKKey", "123456");
    ("R1", "0"); ("R2", ""); ("R3", "1"); ("R6", "0"); ("para", "00");
    ("v6ip", ""); ("terminal_type", "1"); ("lang", "zh-cn");
    ("jsVersion", "4.2.1") ].

(** [_default_config], its parameters stored at [p]. *)
Definition _default_config (p : loc) : Config := {|
  login_ip := Some DEFAULT_LOGIN_IP;
  use_https := false;
  login_path := Some "/drcom/login";
  method := Some (PyStr "GET");
  params := Some p;
  ping_target := Some DEFAULT_PING_TARGET;
  ping_interval_sec := Some (PyInt 60);
  ping_timeout_sec := Some (PyInt 2);
  consecutive_failures_threshold := Some (PyInt 3);
  backoff_attempt_sec := Some (PyInt 60);
  success_check_string := Some ""
|}.

(** [await self.get_config()]: reading the file never raises (the method
    catches everything and falls back to the defaults); what it returns is
    decided by the file, so the returned dict is the argument. *)
Definition get_config (cfg : Config) : M Config := ret cfg.

(** [int(cfg.get(key, d) or d)] *)
Definition setting (field : option pyval) (d : Z) : outcome Z :=
  Py.int (or_else (default (PyInt d) field) (PyInt d)).

Definition int_setting (field : option pyval) (d : Z) : M Z :=
  await (setting field d).

(** [cfg.get("params", {})], read *)
Definition params_of (cfg : Config) : M dict :=
  match params cfg with
  | Some l => deref l
  | None => ret []
  end.

(** ** Prober *)

Record ProbeResult : Type := {
  pr_host : string;
  pr_success : bool;
  pr_rc : Z;
  pr_error : option string
}.

(** [_run_ping(host, timeout)].  [proc] is how the body of the [try] ends:
    the exit code that [wait_for(proc.wait(), timeout + 1)] returns, or the
    exception raised by it or by [create_subprocess_exec]. *)
Definition _run_ping (host : string) (timeout : Z) (proc : outcome Z) : M ProbeResult :=
  try_except
    (tell (Exec ["ping"; "-c"; "1"; "-W"; Py.str timeout; host] (timeout + 1)) ;;
     let* rc := await proc in
     ret {| pr_host := host; pr_success := rc =? 0; pr_rc := rc; pr_error := None |})
    (fun e =>
       match e with
       | TimeoutError =>
           Some (log Warning ("Ping timeout for " +:+ host) ;;
                 ret {| pr_host := host; pr_success := false; pr_rc := -1;
                        pr_error := Some "timeout" |})
       | Error _ _ =>
           Some (log Err ("Ping failed for " +:+ host +:+ ": " +:+ str_exn e) ;;
                 ret {| pr_host := host; pr_success := false; pr_rc := -1;
                        pr_error := Some (str_exn e) |})
       | CancelledError => None
       end).

(** ** Authenticator *)

Definition _build_login_url (config : Config) : string :=
  let protocol := if use_https config then "https" else "http" in
  let login_ip := default DEFAULT_LOGIN_IP (login_ip config) in
  let login_path := default "/drcom/login" (login_path config) in
  protocol +:+ "://" +:+ login_ip +:+ login_path.

(** How the request ends: a response that is read and decoded, or one of
    the exceptions [_make_http_request] tells apart. *)
Inductive urlopen_outcome : Type :=
| Responded (status : Z) (body : string)
| HTTPError (code : Z) (reason : string)
| URLError (reason : string)
| Failed (kind msg : string).

Definition urlopen (rq : request) (net : urlopen_outcome) : M urlopen_outcome :=
  tell (Urlopen rq) ;; ret net.

(** The dict [_make_http_request] returns. *)
Record Response : Type := {
  rs_status : Z;
  rs_body : string;
  rs_error : option string
}.

Definition get_request (url : string) (p : dict) : request := {|
  rq_method := "GET";
  rq_url := url +:+ "?" +:+ urlencode p;
  rq_data := None;
  rq_headers := [("User-Agent", USER_AGENT)];
  rq_timeout := HTTP_TIMEOUT
|}.

Definition post_request (url : string) (p : dict) : request := {|
  rq_method := "POST";
  rq_url := url;
  rq_data := Some (urlencode p);
  rq_headers := [("Content-Type", "application/x-www-form-urlencoded");
                 ("User-Agent", USER_AGENT)];
  rq_timeout := HTTP_TIMEOUT
|}.

Definition _make_http_request (method url : string) (params : loc)
    (net : urlopen_outcome) : M Response :=
  let* p := deref params in
  let* r :=
    if String.eqb method "GET" then
      log Info ("GET " +:+ take 150 (rq_url (get_request url p)) +:+ "...") ;;
      urlopen (get_request url p) net
    else
      log Info ("POST " +:+ url) ;;
      urlopen (post_request url p) net
  in
  match r with
  | Responded status body =>
      log Info ("Response: " +:+ Py.str status +:+ ", size: "
                +:+ Py.str (Z.of_nat (Py.len body)) +:+ " bytes") ;;
      ret {| rs_status := status; rs_body := body; rs_error := None |}
  | HTTPError code reason =>
      log Err ("HTTP Error " +:+ Py.str code +:+ ": " +:+ reason) ;;
      ret {| rs_status := code; rs_body := "";
             rs_error := Some ("HTTP " +:+ Py.str code) |}
  | URLError reason =>
      log Err ("URL Error: " +:+ reason) ;;
      ret {| rs_status := -1; rs_body := ""; rs_error := Some reason |}
  | Failed kind msg =>
      log Err ("Request failed: " +:+ kind +:+ ": " +:+ msg) ;;
      ret {| rs_status := -1; rs_body := ""; rs_error := Some msg |}
  end.

(** The dict [do_login] returns; the early returns carry no ["body"]. *)
Record LoginResult : Type := {
  lr_success : bool;
  lr_status : Z;
  lr_body : option string;
  lr_error : option string
}.

(** What one call of [do_login] meets. *)
Record login_env : Type := {
  le_cfg : Config;            (* what get_config returns *)
  le_millis : Z;              (* int(time.time() * 1000) *)
  le_http : urlopen_outcome;  (* how urlopen ends *)
  le_now : Z;                 (* int(time.time()) at the emit *)
  le_emit : outcome unit      (* how awaiting decky.emit ends *)
}.

Definition opt_truthy (o : option string) : bool :=
  match o with
  | Some s => str_truthy s
  | None => false
  end.

(** [success] as [do_login] decides it. *)
Definition login_success (success_check : string) (status : Z) (body : string) : bool :=
  if status =? 200 then
    if str_truthy success_check then contains success_check body else true
  else false.

(** How [await loop.run_in_executor(None, f, ...)] ends: [f] ran in its
    thread and its result came back; or the awaiting task was cancelled
    while the call still sat in the queue of the pool, and [f] never runs;
    or it was cancelled while [f] was running, and [f] runs to its end in
    its thread with nobody left to read the result. *)
Inductive executor_end : Type :=
| Completed
| CancelledQueued
| CancelledRunning.

Definition run_in_executor {A} (how : executor_end) (f : M A) : M A :=
  match how with
  | Completed => f
  | CancelledQueued => raise CancelledError
  | CancelledRunning => f ;; raise CancelledError
  end.

(** [do_login]; [how] is the way its wait for the request ends. *)
Definition do_login_awaited (env : login_env) (how : executor_end) : M LoginResult :=
  tell (Call "do_login") ;;
  let* cfg := get_config (le_cfg env) in
  let* configured := params_of cfg in
  if negb (opt_truthy (Py.get "DDDDD" configured)) then
    log Warning "Login skipped: Student ID (DDDDD) not configured" ;;
    ret {| lr_success := false; lr_status := -1; lr_body := None;
           lr_error := Some "Student ID not configured" |}
  else if negb (opt_truthy (Py.get "upass" configured)) then
    log Warning "Login skipped: Password (upass) not configured" ;;
    ret {| lr_success := false; lr_status := -1; lr_body := None;
           lr_error := Some "Password not configured" |}
  else
    let url := _build_login_url cfg in
    let* method := await (Py.str_upper (default (PyStr "GET") (method cfg))) in
    let* params := alloc configured in
    let success_check := default "" (success_check_string cfg) in
    setitem params "v" (Py.str (le_millis env mod 10000)) ;;
    let* sent := deref params in
    log Info ("Login attempt: " +:+ method +:+ " " +:+ url +:+ " with "
              +:+ Py.str (Z.of_nat (length sent)) +:+ " parameters") ;;
    let* res := run_in_executor how (_make_http_request method url params (le_http env)) in
    let status := rs_status res in
    let body := rs_body res in
    let error := rs_error res in
    let success := login_success success_check status body in
    let message := str_or error (if str_truthy body then take 256 body else "") in
    tell (EmitLogin success status message (le_now env)) ;;
    await (le_emit env) ;;
    log Info ("Login " +:+ (if success then "succeeded" else "failed")
              +:+ ": status=" +:+ Py.str status) ;;
    ret {| lr_success := success; lr_status := status;
           lr_body := Some (take 1024 body); lr_error := error |}.

(** [do_login] in the runs in which the request comes back to it. *)
Definition do_login (env : login_env) : M LoginResult :=
  do_login_awaited env Completed.

(** ** Monitor loop *)

(** What one pass through the body of [while True] meets. *)
Record cycle_env : Type := {
  ce_cfg : Config;                  (* what get_config returns *)
  ce_ping : outcome Z;              (* how the ping subprocess ends *)
  ce_now : Z;                       (* int(time.time()) at the emit *)
  ce_emit : outcome unit;           (* how awaiting decky.emit ends *)
  ce_login : login_env;             (* what do_login meets, if called *)
  ce_backoff_sleep : outcome unit;  (* how asyncio.sleep(backoff) ends *)
  ce_interval_sleep : outcome unit  (* how asyncio.sleep(interval) ends *)
}.

(** The body of [while True], from the counter before to the counter after. *)
Definition monitor_cycle (consecutive_failures : Z) (env : cycle_env) : M Z :=
  let* cfg := get_config (ce_cfg env) in
  let host := str_or (ping_target cfg) DEFAULT_PING_TARGET in
  let* interval := int_setting (ping_interval_sec cfg) 60 in
  let* timeout := int_setting (ping_timeout_sec cfg) 2 in
  let* threshold := int_setting (consecutive_failures_threshold cfg) 3 in
  let* backoff := int_setting (backoff_attempt_sec cfg) 60 in
  let* result := _run_ping host timeout (ce_ping env) in
  let success := pr_success result in
  let* consecutive_failures :=
    if success then
      let* consecutive_failures :=
        if consecutive_failures >? 0 then
          log Info "Network connectivity restored" ;; ret 0
        else ret consecutive_failures
      in
      tell (EmitPing host true consecutive_failures (ce_now env)) ;;
      await (ce_emit env) ;;
      ret consecutive_failures
    else
      let consecutive_failures := consecutive_failures + 1 in
      tell (EmitPing host false consecutive_failures (ce_now env)) ;;
      await (ce_emit env) ;;
      log Warning ("Ping failure " +:+ Py.str consecutive_failures +:+ "/"
                   +:+ Py.str threshold) ;;
      if consecutive_failures >=? threshold then
        log Warning "Failure threshold reached, attempting login" ;;
        do_login (ce_login env) ;;
        sleep backoff (ce_backoff_sleep env) ;;
        ret 0
      else ret consecutive_failures
  in
  sleep interval (ce_interval_sleep env) ;;
  ret consecutive_failures.

(** [while True] over the cycles given; the counter it returns is the one
    the loop holds, still running, once they are used up. *)
Fixpoint monitor_loop (consecutive_failures : Z) (envs : list cycle_env) : M Z :=
  match envs with
  | [] => ret consecutive_failures
  | env :: rest =>
      let* consecutive_failures := monitor_cycle consecutive_failures env in
      monitor_loop consecutive_failures rest
  end.

(** Where the task stands after the cycles given: inside the loop, or the
    coroutine has returned (the task is done). *)
Inductive task_state : Type :=
| Looping (consecutive_failures : Z)
| Returned.

(** [_ping_monitor]; [pause] is how the [asyncio.sleep(5)] of the last
    handler ends. *)
Definition _ping_monitor (envs : list cycle_env) (pause : outcome unit) : M task_state :=
  log Info "Ping monitor task started" ;;
  try_except
    (let* consecutive_failures := monitor_loop 0 envs in
     ret (Looping consecutive_failures))
    (fun e =>
       match e with
       | CancelledError =>
           Some (log Info "Ping monitor cancelled" ;; ret Returned)
       | _ =>
           Some (log Err ("Ping monitor error: " +:+ str_exn e) ;;
                 sleep 5 pause ;;
                 ret Returned)
       end).

(** ** Controller *)

Module Controller.

(** An [asyncio.Task] running [_ping_monitor]: [done()] holds only once
    the coroutine has returned; [cancel()] on a pending task is a request
    the task meets at its next await. *)
Inductive task : Type := Pending | Cancelling | Finished.

Definition done (t : task) : bool :=
  match t with
  | Finished => true
  | _ => false
  end.

(** The plugin object and the monitor tasks created on the event loop so
    far; [_monitor_task] is a handle (an index) into them. *)
Record plugin : Type := {
  loop : bool;
  _monitor_task : option nat;
  tasks : list task
}.

(** [__init__] *)
Definition init : plugin :=
  {| loop := false; _monitor_task := None; tasks := [] |}.

(** [self._monitor_task and isinstance(...) and not self._monitor_task.done()] *)
Definition is_monitor_running (p : plugin) : bool :=
  match _monitor_task p with
  | Some h =>
      match tasks p !! h with
      | Some t => negb (done t)
      | None => false
      end
  | None => false
  end.

Definition start_ping_monitor (p : plugin) : plugin * list event :=
  if is_monitor_running p then (p, [Log Warning "Monitor already running"])
  else
    ({| loop := true;
        _monitor_task := Some (length (tasks p));
        tasks := tasks p ++ [Pending] |},
     [Log Info "Ping monitor started"]).

(** [task.cancel()] *)
Definition cancel (t : task) : task :=
  match t with
  | Pending => Cancelling
  | other => other
  end.

(** [_unload] *)
Definition _unload (p : plugin) : plugin * list event :=
  if is_monitor_running p then
    ({| loop := loop p;
        _monitor_task := _monitor_task p;
        tasks := match _monitor_task p with
                 | Some h => alter cancel h (tasks p)
                 | None => tasks p
                 end |},
     [Log Info "Plugin unloading"])
  else (p, [Log Info "Plugin unloading"]).

(** What can happen to the plugin in one go: a call of
    [start_ping_monitor], a call of [_unload], or the coroutine of task
    [h] returning (on a fault or on meeting its cancellation).  A call of
    [stop_ping_monitor] waits in its middle and is no such step; [call]
    below adds it. *)
Inductive op : Type :=
| Start
| Unload
| Exit (h : nat).

Definition step (p : plugin) (o : op) : plugin :=
  match o with
  | Start => fst (start_ping_monitor p)
  | Unload => fst (_unload p)
  | Exit h =>
      {| loop := loop p;
         _monitor_task := _monitor_task p;
         tasks := alter (fun _ => Finished) h (tasks p) |}
  end.

Definition run (ops : list op) : plugin := fold_left step ops init.

(** The monitor loops alive on the event loop. *)
Definition active (p : plugin) : nat :=
  length (List.filter (fun t => negb (done t)) (tasks p)).

End Controller.

(** ** What the properties speak of *)

(** [s] occurs verbatim in [b]. *)
Definition occurs_in (s b : string) : Prop :=
  exists pre post, b = pre +:+ s +:+ post.

(** [m], started in [w], adds the events [evs], leaves the heap [h] and
    ends as [r]. *)
Definition runs {A} (m : M A) (w : world) (h : list dict) (evs : list event)
    (r : outcome A) : Prop :=
  m w = ({| heap := h; trace := trace w ++ evs |}, r).

(** The configured login parameters, as [do_login] reads them from the
    heap [h]. *)
Definition params_at (cfg : Config) (h : list dict) : dict :=
  match params cfg with
  | Some l => default [] (h !! l)
  | None => []
  end.

(** Both credential fields are there and not empty. *)
Definition has_credentials (cfg : Config) (h : list dict) : bool :=
  opt_truthy (Py.get "DDDDD" (params_at cfg h))
  && opt_truthy (Py.get "upass" (params_at cfg h)).

(** The dict [_make_http_request] returns for each way [urlopen] ends. *)
Definition response_of (net : urlopen_outcome) : Response :=
  match net with
  | Responded status body =>
      {| rs_status := status; rs_body := body; rs_error := None |}
  | HTTPError code _ =>
      {| rs_status := code; rs_body := ""; rs_error := Some ("HTTP " +:+ Py.str code) |}
  | URLError reason =>
      {| rs_status := -1; rs_body := ""; rs_error := Some reason |}
  | Failed _ msg =>
      {| rs_status := -1; rs_body := ""; rs_error := Some msg |}
  end.

(** The requests handed to [urlopen], oldest first. *)
Definition requests (evs : list event) : list request :=
  omap (fun ev => match ev with Urlopen rq => Some rq | _ => None end) evs.

Definition is_call (fn : string) (ev : event) : bool :=
  match ev with
  | Call f => String.eqb f fn
  | _ => false
  end.

(** How often [fn] was entered. *)
Definition calls (fn : string) (evs : list event) : nat :=
  length (List.filter (is_call fn) evs).

(** The request [_make_http_request] builds. *)
Definition request_for (method url : string) (p : dict) : request :=
  if String.eqb method "GET" then get_request url p else post_request url p.

(** What [_run_ping] logs and returns for each way the subprocess ends. *)
Definition probe_events (host : string) (timeout : Z) (proc : outcome Z) : list event :=
  Exec ["ping"; "-c"; "1"; "-W"; Py.str timeout; host] (timeout + 1)
  :: match proc with
     | Exn TimeoutError => [Log Warning ("Ping timeout for " +:+ host)]
     | Exn (Error kind msg) => [Log Err ("Ping failed for " +:+ host +:+ ": " +:+ msg)]
     | _ => []
     end.

Definition probe_result (host : string) (proc : outcome Z) : outcome ProbeResult :=
  match proc with
  | Val rc =>
      Val {| pr_host := host; pr_success := rc =? 0; pr_rc := rc; pr_error := None |}
  | Exn TimeoutError =>
      Val {| pr_host := host; pr_success := false; pr_rc := -1;
             pr_error := Some "timeout" |}
  | Exn (Error _ msg) =>
      Val {| pr_host := host; pr_success := false; pr_rc := -1; pr_error := Some msg |}
  | Exn CancelledError => Exn CancelledError
  end.

Definition returns {A} (r : outcome A) : bool :=
  match r with
  | Val _ => true
  | Exn _ => false
  end.

Definition interrupted {A} (r : outcome A) : bool :=
  match r with
  | Exn CancelledError => true
  | _ => false
  end.

(** The probe reports success. *)
Definition probe_ok (proc : outcome Z) : bool :=
  match proc with
  | Val rc => rc =? 0
  | Exn _ => false
  end.

(** The setting a cycle works with (the default where [int] would raise;
    a calm cycle has none of those). *)
Definition effective (field : option pyval) (d : Z) : Z :=
  match setting field d with
  | Val z => z
  | Exn _ => d
  end.

Definition interval_of (cfg : Config) : Z := effective (ping_interval_sec cfg) 60.
Definition timeout_of (cfg : Config) : Z := effective (ping_timeout_sec cfg) 2.
Definition threshold_of (cfg : Config) : Z :=
  effective (consecutive_failures_threshold cfg) 3.
Definition backoff_of (cfg : Config) : Z := effective (backoff_attempt_sec cfg) 60.

Definition settings_ok (cfg : Config) : bool :=
  returns (setting (ping_interval_sec cfg) 60)
  && returns (setting (ping_timeout_sec cfg) 2)
  && returns (setting (consecutive_failures_threshold cfg) 3)
  && returns (setting (backoff_attempt_sec cfg) 60).

(** [do_login] has nothing to raise: the method is a string (or missing)
    and the emit returns. *)
Definition login_calm (env : login_env) : bool :=
  returns (Py.str_upper (default (PyStr "GET") (method (le_cfg env))))
  && returns (le_emit env).

(** A cycle in which nothing raises into the loop: the settings convert,
    the ping is not interrupted, both emits and both sleeps return. *)
Definition calm (env : cycle_env) : bool :=
  settings_ok (ce_cfg env)
  && negb (interrupted (ce_ping env))
  && returns (ce_emit env)
  && login_calm (ce_login env)
  && returns (ce_backoff_sleep env)
  && returns (ce_interval_sleep env).

(** Remediation fires in the cycle entered with counter [cf]. *)
Definition fires (cf : Z) (env : cycle_env) : bool :=
  negb (probe_ok (ce_ping env)) && (cf + 1 >=? threshold_of (ce_cfg env)).

(** The counter a calm cycle leaves. *)
Definition next_failures (cf : Z) (env : cycle_env) : Z :=
  if probe_ok (ce_ping env) then (if cf >? 0 then 0 else cf)
  else if cf + 1 >=? threshold_of (ce_cfg env) then 0
  else cf + 1.

Definition sleeps (evs : list event) : list Z :=
  omap (fun ev => match ev with Sleep secs => Some secs | _ => None end) evs.

Definition is_probe (ev : event) : bool :=
  match ev with
  | Exec _ _ => true
  | _ => false
  end.

(** How many probes were started. *)
Definition probes (evs : list event) : nat := length (List.filter is_probe evs).

(** What the loop logs and emits after a successful and after a failed
    probe, entered with counter [cf]. *)
Definition success_events (host : string) (cf now : Z) : list event :=
  (if cf >? 0 then [Log Info "Network connectivity restored"] else [])
  ++ [EmitPing host true (if cf >? 0 then 0 else cf) now].

Definition failure_events (host : string) (cf threshold now : Z) : list event :=
  [EmitPing host false (cf + 1) now;
   Log Warning ("Ping failure " +:+ Py.str (cf + 1) +:+ "/" +:+ Py.str threshold)].

(** Following the spec's words: the counter is reset to 0 on a probe
    success and right after a remediation attempt, and is one more after
    any other (failed) probe. *)
Definition counter_spec (cf : Z) (probe_succeeded remediation_attempted : bool) : Z :=
  if probe_succeeded || remediation_attempted then 0 else cf + 1.

Import Controller.

(** What every reachable plugin state looks like: no task was ever created
    and there is no handle, or the handle is the task created last and
    every earlier task is done. *)
Definition settled (p : plugin) : Prop :=
  (tasks p = [] /\ _monitor_task p = None)
  \/ exists l t,
       tasks p = l ++ [t]
       /\ Forall (fun t' => done t' = true) l
       /\ _monitor_task p = Some (length l).

(** ** Scenarios *)

(** A portal account and a login attempt made at [millis] (epoch time in
    milliseconds) with the default configuration. *)
Definition account : dict := Py.set "upass" "secret" (Py.set "DDDDD" "20230001" default_params).

Definition portal : world := {| heap := [account]; trace := [] |}.

Definition attempt_at (millis : Z) : login_env := {|
  le_cfg := _default_config 0%nat;
  le_millis := millis;
  le_http := Responded 200 "ok";
  le_now := millis / 1000;
  le_emit := Val tt
|}.

(** A configuration file that holds ["method": null] next to valid
    credentials (everything else as in the defaults). *)
Definition null_method_config : Config := {|
  login_ip := Some DEFAULT_LOGIN_IP;
  use_https := false;
  login_path := Some "/drcom/login";
  method := Some PyNone;
  params := Some 0%nat;
  ping_target := Some DEFAULT_PING_TARGET;
  ping_interval_sec := Some (PyInt 60);
  ping_timeout_sec := Some (PyInt 2);
  consecutive_failures_threshold := Some (PyInt 3);
  backoff_attempt_sec := Some (PyInt 60);
  success_check_string := Some ""
|}.

(** A cycle at time [now] under configuration [cfg] whose ping ends as
    [proc]; every awaited call returns. *)
Definition cycle_at (cfg : Config) (proc : outcome Z) (now : Z) : cycle_env := {|
  ce_cfg := cfg;
  ce_ping := proc;
  ce_now := now;
  ce_emit := Val tt;
  ce_login := {| le_cfg := cfg; le_millis := now * 1000; le_http := Responded 200 "ok";
                 le_now := now; le_emit := Val tt |};
  ce_backoff_sleep := Val tt;
  ce_interval_sleep := Val tt
|}.

(** A fresh installation: the default parameters, no credentials yet. *)
Definition fresh_install : world := {| heap := [default_params]; trace := [] |}.

(** The default configuration with ["method": "post"]. *)
Definition post_config : Config := {|
  login_ip := Some DEFAULT_LOGIN_IP;
  use_https := true;
  login_path := Some "/drcom/login";
  method := Some (PyStr "post");
  params := Some 0%nat;
  ping_target := Some DEFAULT_PING_TARGET;
  ping_interval_sec := Some (PyInt 60);
  ping_timeout_sec := Some (PyInt 2);
  consecutive_failures_threshold := Some (PyInt 3);
  backoff_attempt_sec := Some (PyInt 60);
  success_check_string := Some "success"
|}.

Definition post_attempt : login_env := {|
  le_cfg := post_config;
  le_millis := 1700000012345;
  le_http := Responded 200 "login success";
  le_now := 1700000012;
  le_emit := Val tt
|}.

(** The network is down: the ping exits with code 1. *)
Definition down (now : Z) : cycle_env := cycle_at (_default_config 0%nat) (Val 1) now.

(** ** Configuration file *)

(** [get_config], [save_config] and [reset_config] against the file they
    keep.  [document] is a JSON document as [json.load] returns it (what
    [json.dump] wrote is what [json.load] reads back); the directory that
    Decky assigns to the plugin and the default configuration are given. *)
Module Store.
Section Store.

Variable document : Type.
Variable _default_config : document.
Variable DECKY_PLUGIN_SETTINGS_DIR : string.

(** The configuration file: not there, there but rejected by [json.load]
    (edited by hand, or cut short by a write that failed), or holding a
    document. *)
Inductive file : Type :=
| Absent
| Damaged
| Holds (c : document).

(** What the file system does to the calls of one method: [None] when the
    call works, the text of the [OSError] it raises otherwise. *)
Record io : Type := {
  io_makedirs : option string;   (* os.makedirs(plugin_dir, exist_ok=True) *)
  io_open_read : option string;  (* open(path, "r") *)
  io_open_write : option string; (* open(path, "w") *)
  io_dump : option string;       (* json.dump into the open file, and closing it *)
  io_remove : option string      (* os.remove(path) *)
}.

Record disk : Type := {
  stored : file;
  journal : list event
}.

Definition D (A : Type) : Type := disk -> disk * outcome A.

Definition dret {A} (a : A) : D A := fun d => (d, Val a).

Definition dbind {A B} (m : D A) (k : A -> D B) : D B :=
  fun d =>
    match m d with
    | (d', Val a) => k a d'
    | (d', Exn e) => (d', Exn e)
    end.

Declare Scope disk_scope.
Notation "'let*' x := m 'in' k" := (dbind m (fun x => k))
  (at level 10, x name, m at level 100, k at level 200) : disk_scope.
Notation "m ;; k" := (dbind m (fun _ => k))
  (at level 100, k at level 200, right associativity) : disk_scope.
Local Open Scope disk_scope.

(** [try: body except Exception as e: handler e] *)
Definition dtry {A} (body : D A) (handler : exn -> D A) : D A :=
  fun d =>
    match body d with
    | (d', Val a) => (d', Val a)
    | (d', Exn e) => if is_Exception e then handler e d' else (d', Exn e)
    end.

Definition dlog (lv : level) (msg : string) : D unit :=
  fun d => ({| stored := stored d; journal := journal d ++ [Log lv msg] |}, Val tt).

(** A call that works or raises [OSError]. *)
Definition attempt (fault : option string) : D unit :=
  fun d =>
    match fault with
    | None => (d, Val tt)
    | Some msg => (d, Exn (Error "OSError" msg))
    end.

Definition _config_dir (x : io) : D string :=
  let plugin_dir := DECKY_PLUGIN_SETTINGS_DIR +:+ "/schoolnet-autologin" in
  attempt (io_makedirs x) ;;
  dret plugin_dir.

Definition _config_path (x : io) : D string :=
  let* dir := _config_dir x in
  dret (dir +:+ "/config.json").

(** [os.path.exists(path)] *)
Definition path_exists : D bool :=
  fun d =>
    (d, Val match stored d with
            | Absent => false
            | _ => true
            end).

(** [with open(path, "w") as f: json.dump(c, f, indent=2)]: a failed open
    leaves the file as it was; once opened the file is cut to nothing, so a
    dump that fails leaves a file [json.load] rejects. *)
Definition dump (x : io) (c : document) : D unit :=
  attempt (io_open_write x) ;;
  fun d =>
    match io_dump x with
    | None => ({| stored := Holds c; journal := journal d |}, Val tt)
    | Some msg => ({| stored := Damaged; journal := journal d |}, Exn (Error "OSError" msg))
    end.

(** [with open(path, "r") as f: return json.load(f)] *)
Definition load (x : io) : D document :=
  attempt (io_open_read x) ;;
  fun d =>
    match stored d with
    | Holds c => (d, Val c)
    | Damaged => (d, Exn (Error "JSONDecodeError" "Expecting value"))
    | Absent => (d, Exn (Error "FileNotFoundError" "No such file or directory"))
    end.

(** [os.remove(path)] *)
Definition remove (x : io) : D unit :=
  attempt (io_remove x) ;;
  fun d => ({| stored := Absent; journal := journal d |}, Val tt).

Definition get_config (x : io) : D document :=
  dtry
    (let* path := _config_path x in
     let* there := path_exists in
     if negb there then
       let cfg := _default_config in
       dump x cfg ;;
       dlog Info ("Created default configuration at: " +:+ path) ;;
       dret cfg
     else load x)
    (fun e =>
       dlog Err ("Failed to load config: " +:+ str_exn e) ;;
       dret _default_config).

Definition save_config (x : io) (config : document) : D unit :=
  dtry
    (let* path := _config_path x in
     dump x config ;;
     dlog Info "Configuration saved successfully")
    (fun e => dlog Err ("Failed to save config: " +:+ str_exn e)).

Definition reset_config (x : io) : D document :=
  dtry
    (let* path := _config_path x in
     let* there := path_exists in
     (if there then
        remove x ;;
        dlog Info "Old configuration file deleted"
      else dret tt) ;;
     let cfg := _default_config in
     dump x cfg ;;
     dlog Info "Configuration reset to defaults and saved" ;;
     dret cfg)
    (fun e =>
       dlog Err ("Failed to reset config: " +:+ str_exn e) ;;
       dret _default_config).

(** A file system on which every call works. *)
Definition works : io := {|
  io_makedirs := None;
  io_open_read := None;
  io_open_write := None;
  io_dump := None;
  io_remove := None
|}.

End Store.

Arguments Absent {document}.
Arguments Damaged {document}.
Arguments Holds {document} c.
Arguments stored {document} d.
Arguments journal {document} d.
Arguments Build_disk {document} stored journal.
Arguments get_config {document} _default_config DECKY_PLUGIN_SETTINGS_DIR x _.
Arguments save_config {document} DECKY_PLUGIN_SETTINGS_DIR x config _.
Arguments reset_config {document} _default_config DECKY_PLUGIN_SETTINGS_DIR x _.

End Store.

(** ** Test ping *)

(** What one call of [test_ping] meets. *)
Record ping_env : Type := {
  tp_cfg : Config;         (* what get_config returns *)
  tp_ping : outcome Z;     (* how the ping subprocess ends *)
  tp_now : Z;              (* int(time.time()) at the emit *)
  tp_emit : outcome unit   (* how awaiting decky.emit ends *)
}.

Definition test_ping (env : ping_env) : M ProbeResult :=
  let* cfg := get_config (tp_cfg env) in
  let host := str_or (ping_target cfg) DEFAULT_PING_TARGET in
  let* timeout := int_setting (ping_timeout_sec cfg) 2 in
  let* result := _run_ping host timeout (tp_ping env) in
  tell (EmitPing (pr_host result) (pr_success result) 0 (tp_now env)) ;;
  await (tp_emit env) ;;
  ret result.

(** ** Stopping the monitor *)

(** [stop_ping_monitor] up to its [await]: with a task handle it asks the
    task to cancel and waits for it ([Some h]: the task awaited); without
    one it does nothing. *)
Definition stop_begin (p : plugin) : plugin * option nat :=
  match _monitor_task p with
  | Some h =>
      ({| loop := loop p;
          _monitor_task := _monitor_task p;
          tasks := alter cancel h (tasks p) |},
       Some h)
  | None => (p, None)
  end.

(** [stop_ping_monitor] from its [await] on, once the awaited task is
    done: the handle is cleared. *)
Definition stop_end (p : plugin) : plugin * list event :=
  ({| loop := loop p; _monitor_task := None; tasks := tasks p |},
   [Log Info "Ping monitor stopped"]).

(** The awaited task is done, so the call can go on. *)
Definition awaited_done (p : plugin) (h : nat) : bool :=
  match tasks p !! h with
  | Some t => done t
  | None => false
  end.

(** One call of [stop_ping_monitor]; [meanwhile] is what happens to the
    plugin while the call waits.  [None] when the awaited task is still
    not done after that (the call is still waiting). *)
Definition stop_ping_monitor (p : plugin) (meanwhile : list op) : option plugin :=
  match stop_begin p with
  | (p1, Some h) =>
      let p2 := fold_left step meanwhile p1 in
      if awaited_done p2 h then Some (fst (stop_end p2)) else None
  | (_, None) => Some p
  end.

(** ** The plugin with its stop calls *)

(** The plugin together with the calls of [stop_ping_monitor] that wait at
    their [await], each with the task it waits for. *)
Record process : Type := {
  plug : plugin;
  waiting : list nat
}.

(** What can happen to the process: whatever can happen to the plugin; a
    call of [stop_ping_monitor], which runs up to its [await] and, if the
    task awaited is done already, on to its end; or the event loop
    resuming a stop call that waits for task [h], once that task is
    done. *)
Inductive call : Type :=
| Do (o : op)
| Stop
| Resume (h : nat).

Fixpoint resumed (h : nat) (l : list nat) : list nat :=
  match l with
  | [] => []
  | k :: l' => if Nat.eqb k h then l' else k :: resumed h l'
  end.

Definition react (s : process) (c : call) : process :=
  match c with
  | Do o => {| plug := step (plug s) o; waiting := waiting s |}
  | Stop =>
      match stop_begin (plug s) with
      | (p1, Some h) =>
          if awaited_done p1 h then
            {| plug := fst (stop_end p1); waiting := waiting s |}
          else {| plug := p1; waiting := waiting s ++ [h] |}
      | (_, None) => s
      end
  | Resume h =>
      if existsb (Nat.eqb h) (waiting s) && awaited_done (plug s) h then
        {| plug := fst (stop_end (plug s)); waiting := resumed h (waiting s) |}
      else s
  end.

Definition boot : process := {| plug := init; waiting := [] |}.

Definition reach (cs : list call) : process := fold_left react cs boot.

(** ** What the further properties speak of *)

(** The [login_status] events: success flag, status, message. *)
Definition login_statuses (evs : list event) : list (bool * Z * string) :=
  omap (fun ev => match ev with
                  | EmitLogin ok status msg _ => Some (ok, status, msg)
                  | _ => None
                  end) evs.

(** The [ping_status] events: success flag and failure count. *)
Definition ping_statuses (evs : list event) : list (bool * Z) :=
  omap (fun ev => match ev with
                  | EmitPing _ ok failures _ => Some (ok, failures)
                  | _ => None
                  end) evs.

(** The events [do_login] can add. *)
Definition is_login_event (ev : event) : bool :=
  match ev with
  | Call _ | Log _ _ | Urlopen _ | EmitLogin _ _ _ _ => true
  | _ => false
  end.

(** The message of the [login_status] event. *)
Definition login_message (res : Response) : string :=
  str_or (rs_error res) (if str_truthy (rs_body res) then take 256 (rs_body res) else "").


(** A setting that is missing or falsy ([null], [0], [""], [false]). *)
Definition unset (field : option pyval) : bool :=
  match field with
  | None => true
  | Some v => negb (truthy v)
  end.

(** ** Further scenarios *)

(** A login attempt that cannot reach the portal. *)
Definition unreachable_attempt : login_env := {|
  le_cfg := post_config;
  le_millis := 1700000012345;
  le_http := URLError "timed out";
  le_now := 1700000012;
  le_emit := Val tt
|}.

(** A test ping under the default configuration whose ping gets no
    reply. *)
Definition test_env : ping_env := {|
  tp_cfg := _default_config 0%nat;
  tp_ping := Val 1;
  tp_now := 1700000012;
  tp_emit := Val tt
|}.

(** The default configuration with ["ping_timeout_sec": "fast"]. *)
Definition fast_timeout_config : Config := {|
  login_ip := Some DEFAULT_LOGIN_IP;
  use_https := false;
  login_path := Some "/drcom/login";
  method := Some (PyStr "GET");
  params := Some 0%nat;
  ping_target := Some DEFAULT_PING_TARGET;
  ping_interval_sec := Some (PyInt 60);
  ping_timeout_sec := Some (PyStr "fast");
  consecutive_failures_threshold := Some (PyInt 3);
  backoff_attempt_sec := Some (PyInt 60);
  success_check_string := Some ""
|}.

(** A configuration whose four timing settings are 0, null, empty and
    missing. *)
Definition untimed_config : Config := {|
  login_ip := Some DEFAULT_LOGIN_IP;
  use_https := false;
  login_path := Some "/drcom/login";
  method := Some (PyStr "GET");
  params := Some 0%nat;
  ping_target := None;
  ping_interval_sec := Some (PyInt 0);
  ping_timeout_sec := Some PyNone;
  consecutive_failures_threshold := Some (PyStr "");
  backoff_attempt_sec := None;
  success_check_string := Some ""
|}.

(** The network is down and the monitor is cancelled during the interval
    sleep. *)
Definition cancelled_asleep (now : Z) : cycle_env := {|
  ce_cfg := _default_config 0%nat;
  ce_ping := Val 1;
  ce_now := now;
  ce_emit := Val tt;
  ce_login := attempt_at (now * 1000);
  ce_backoff_sleep := Val tt;
  ce_interval_sleep := Exn CancelledError
|}.

(** The network is down and the configuration holds
    ["ping_interval_sec": "soon"]. *)
Definition soon (now : Z) : cycle_env := {|
  ce_cfg := {|
    login_ip := Some DEFAULT_LOGIN_IP;
    use_https := false;
    login_path := Some "/drcom/login";
    method := Some (PyStr "GET");
    params := Some 0%nat;
    ping_target := Some DEFAULT_PING_TARGET;
    ping_interval_sec := Some (PyStr "soon");
    ping_timeout_sec := Some (PyInt 2);
    consecutive_failures_threshold := Some (PyInt 3);
    backoff_attempt_sec := Some (PyInt 60);
    success_check_string := Some ""
  |};
  ce_ping := Val 1;
  ce_now := now;
  ce_emit := Val tt;
  ce_login := attempt_at (now * 1000);
  ce_backoff_sleep := Val tt;
  ce_interval_sleep := Val tt
|}.

(** The default configuration without a ["method"] entry, and a login
    attempt under it. *)
Definition no_method_config : Config := {|
  login_ip := Some DEFAULT_LOGIN_IP;
  use_https := false;
  login_path := Some "/drcom/login";
  method := None;
  params := Some 0%nat;
  ping_target := Some DEFAULT_PING_TARGET;
  ping_interval_sec := Some (PyInt 60);
  ping_timeout_sec := Some (PyInt 2);
  consecutive_failures_threshold := Some (PyInt 3);
  backoff_attempt_sec := Some (PyInt 60);
  success_check_string := Some ""
|}.

Definition no_method_attempt : login_env := {|
  le_cfg := no_method_config;
  le_millis := 1700000012345;
  le_http := Responded 200 "ok";
  le_now := 1700000012;
  le_emit := Val tt
|}.

(** A start, a stop call that waits for the cancelled monitor, the monitor
    ending, a start that runs before the stop call is resumed, and the
    stop call resuming. *)
Definition stop_race : list call :=
  [Do Start; Stop; Do (Exit 0); Do Start; Resume 0].

(** * Properties *)

(** ** Python built-ins *)

Example int_of_str_plain : int_of_str "60" = Some 60.
Proof. reflexivity. Qed.
Example int_of_str_spaced : int_of_str "  -1_000 " = Some (-1000).
Proof. reflexivity. Qed.
Example int_of_str_letters : int_of_str "abc" = None.
Proof. reflexivity. Qed.
Example upper_get : upper "get" = "GET".
Proof. reflexivity. Qed.
Example contains_case : contains "ok" "login OK" = false /\ contains "OK" "login OK" = true.
Proof. split; reflexivity. Qed.
Example urlencode_two :
  urlencode [("lang", "zh-cn"); ("v6ip", "a b&c")] = "lang=zh-cn&v6ip=a+b%26c".
Proof. reflexivity. Qed.
Example str_demo : str 4711 = "4711".
Proof. vm_compute. reflexivity. Qed.

(** ** Strings and dicts *)

Lemma startswith_spec (s b : string) :
  startswith s b = true <-> exists post, b = s +:+ post.
Proof.
  revert b. induction s as [|a s IH]; intros b; simpl.
  - split; [intros _; exists b; reflexivity | reflexivity].
  - destruct b as [|c b].
    + split; [discriminate | intros [post H]; discriminate].
    + rewrite andb_true_iff, Ascii.eqb_eq, IH. split.
      * intros [-> [post ->]]. exists post. reflexivity.
      * intros [post H]. injection H as -> ->. split; [reflexivity | now exists post].
Qed.

Lemma contains_spec (s b : string) :
  contains s b = true <-> occurs_in s b.
Proof.
  induction b as [|c b IH]; simpl.
  - rewrite orb_false_r, startswith_spec. split.
    + intros [post H]. exists "", post. exact H.
    + intros [pre [post H]]. destruct pre; simpl in H.
      * exists post. exact H.
      * discriminate.
  - rewrite orb_true_iff, startswith_spec, IH. split.
    + intros [[post H] | [pre [post H]]].
      * exists "", post. exact H.
      * exists (String c pre), post. simpl. now rewrite H.
    + intros [pre [post H]]. destruct pre as [|a pre]; simpl in H.
      * left. exists post. exact H.
      * right. exists pre, post. now injection H.
Qed.

Lemma str_truthy_false (s : string) : str_truthy s = false <-> s = "".
Proof. destruct s; simpl; split; congruence. Qed.

Lemma str_inj (a b : Z) : Py.str a = Py.str b -> a = b.
Proof. unfold Py.str. apply pretty_Z_inj. Qed.

Lemma get_set_same (k v : string) (d : dict) : Py.get k (Py.set k v d) = Some v.
Proof.
  induction d as [|[k' v'] d IH]; simpl.
  - now rewrite String.eqb_refl.
  - destruct (String.eqb k' k) eqn:E; simpl; rewrite E; [reflexivity | exact IH].
Qed.

Lemma get_set_other (k k' v : string) (d : dict) :
  k <> k' -> Py.get k' (Py.set k v d) = Py.get k' d.
Proof.
  intros Hne. induction d as [|[k0 v0] d IH]; simpl.
  - destruct (String.eqb k k') eqn:E; [|reflexivity].
    apply String.eqb_eq in E. contradiction.
  - destruct (String.eqb k0 k) eqn:E; simpl.
    + apply String.eqb_eq in E. subst k0.
      destruct (String.eqb k k') eqn:E'; [|reflexivity].
      apply String.eqb_eq in E'. contradiction.
    + now rewrite IH.
Qed.

(** A new key adds one entry, a key already there adds none. *)
Lemma length_set (k v : string) (d : dict) :
  length (Py.set k v d) =
  match Py.get k d with
  | Some _ => length d
  | None => S (length d)
  end.
Proof.
  induction d as [|[k' v'] d IH]; simpl; [reflexivity|].
  destruct (String.eqb k' k); simpl; [reflexivity|].
  rewrite IH. now destruct (Py.get k d).
Qed.

(** ** Running a coroutine *)

Lemma runs_ret {A} (a : A) (w : world) : runs (ret a) w (heap w) [] (Val a).
Proof. unfold runs, ret. destruct w; simpl. now rewrite app_nil_r. Qed.

Lemma runs_bind {A B} (m : M A) (k : A -> M B) w h1 evs1 a h2 evs2 r :
  runs m w h1 evs1 (Val a) ->
  runs (k a) {| heap := h1; trace := trace w ++ evs1 |} h2 evs2 r ->
  runs (bind m k) w h2 (evs1 ++ evs2) r.
Proof.
  unfold runs, bind. intros -> ->. simpl. now rewrite app_assoc.
Qed.

(** ** Authenticator *)

Lemma make_http_request_runs (method url : string) (l : loc) (net : urlopen_outcome)
    (w : world) :
  exists line1 lv line2,
    runs (_make_http_request method url l net) w (heap w)
      [Log Info line1; Urlopen (request_for method url (default [] (heap w !! l)));
       Log lv line2]
      (Val (response_of net)).
Proof.
  unfold runs, _make_http_request, request_for, bind, deref, urlopen, log, tell, ret.
  destruct (String.eqb method "GET"), net; simpl;
    rewrite <- ?List.app_assoc; simpl; do 3 eexists; reflexivity.
Qed.

Lemma params_of_eq (cfg : Config) (w : world) :
  params_of cfg w = (w, Val (params_at cfg (heap w))).
Proof.
  unfold params_of, params_at. now destruct (params cfg).
Qed.

Lemma alter_fresh {A} (f : A -> A) (l : list A) (x : A) :
  alter f (length l) (l ++ [x]) = l ++ [f x].
Proof.
  replace (length l) with (length l + 0)%nat by lia.
  now rewrite alter_app_r.
Qed.

Lemma lookup_fresh {A} (l : list A) (x : A) : (l ++ [x]) !! length l = Some x.
Proof. apply list_lookup_middle. reflexivity. Qed.

(** With a credential missing, [do_login] logs and returns at once. *)
Lemma do_login_skips (env : login_env) (w : world) :
  has_credentials (le_cfg env) (heap w) = false ->
  exists line msg,
    runs (do_login env) w (heap w) [Call "do_login"; Log Warning line]
      (Val {| lr_success := false; lr_status := -1; lr_body := None;
              lr_error := Some msg |})
    /\ (msg = "Student ID not configured" \/ msg = "Password not configured").
Proof.
  unfold has_credentials. intros H.
  unfold runs, do_login, do_login_awaited, bind, get_config, log, tell, ret.
  simpl. rewrite params_of_eq. simpl.
  destruct (opt_truthy (Py.get "DDDDD" (params_at (le_cfg env) (heap w)))); simpl in *.
  - rewrite H. simpl. rewrite <- List.app_assoc. simpl.
    do 2 eexists. split; [reflexivity | now right].
  - rewrite <- List.app_assoc. simpl.
    do 2 eexists. split; [reflexivity | now left].
Qed.

(** With both credentials, [do_login] sends one request and classifies the
    answer; only the emit can make it raise. *)
Lemma do_login_attempt (env : login_env) (w : world) (m : string) :
  has_credentials (le_cfg env) (heap w) = true ->
  Py.str_upper (default (PyStr "GET") (method (le_cfg env))) = Val m ->
  let cfg := le_cfg env in
  let sent := Py.set "v" (Py.str (le_millis env mod 10000)) (params_at cfg (heap w)) in
  let res := response_of (le_http env) in
  let success :=
    login_success (default "" (success_check_string cfg)) (rs_status res) (rs_body res) in
  exists line1 line2 lv line3 msg line4,
    runs (do_login env) w (heap w ++ [sent])
      ([Call "do_login"; Log Info line1; Log Info line2;
        Urlopen (request_for m (_build_login_url cfg) sent);
        Log lv line3; EmitLogin success (rs_status res) msg (le_now env)]
       ++ match le_emit env with
          | Val _ => [Log Info line4]
          | Exn _ => []
          end)
      (match le_emit env with
       | Val _ => Val {| lr_success := success; lr_status := rs_status res;
                         lr_body := Some (take 1024 (rs_body res));
                         lr_error := rs_error res |}
       | Exn e => Exn e
       end).
Proof.
  unfold has_credentials. intros H Hm. apply andb_true_iff in H as [Hid Hpw].
  cbv zeta.
  unfold runs, do_login, do_login_awaited, run_in_executor, bind, get_config, log, tell, ret, alloc, setitem, deref.
  simpl. rewrite params_of_eq. simpl. rewrite Hid, Hpw, Hm. simpl.
  rewrite alter_fresh, lookup_fresh. simpl.
  match goal with
  | |- context [_make_http_request ?a ?b ?c ?d ?e] =>
      destruct (make_http_request_runs a b c d e) as (l2 & lv & l3 & Hrq);
      unfold runs in Hrq; rewrite Hrq; clear Hrq
  end.
  simpl. rewrite lookup_fresh. simpl.
  destruct (le_emit env) as [[]|e]; simpl; rewrite <- ?List.app_assoc; simpl.
  - do 6 eexists. reflexivity.
  - do 5 eexists. exists "". reflexivity.
Qed.

Lemma opt_truthy_false (o : option string) :
  opt_truthy o = false <-> o = None \/ o = Some "".
Proof.
  destruct o as [s|]; simpl.
  - rewrite str_truthy_false. split.
    + intros ->. now right.
    + intros [H|H]; [discriminate | now injection H].
  - split; [now left | reflexivity].
Qed.

Lemma requests_app (evs evs' : list event) :
  requests (evs ++ evs') = requests evs ++ requests evs'.
Proof. unfold requests. apply omap_app. Qed.

(** Credentials can only be read from a dict that is there. *)
Lemma has_credentials_allocated (cfg : Config) (h : list dict) :
  has_credentials cfg h = true ->
  exists l p, params cfg = Some l /\ h !! l = Some p /\ params_at cfg h = p.
Proof.
  unfold has_credentials, params_at. destruct (params cfg) as [l|]; simpl.
  - destruct (h !! l) as [p|] eqn:E; simpl; [|discriminate].
    intros _. exists l, p. repeat split; try reflexivity. exact E.
  - discriminate.
Qed.

(** C3: when the student id ([DDDDD]) or the password ([upass]) is missing
    from the configured parameters or empty (a configuration without
    [params] has neither), [do_login] returns a failed result that names
    the missing credential, hands no request to [urlopen] and leaves the
    heap as it was. *)
Theorem do_login_missing_credential (env : login_env) (w : world) (key : string) :
  key = "DDDDD" \/ key = "upass" ->
  Py.get key (params_at (le_cfg env) (heap w)) = None
  \/ Py.get key (params_at (le_cfg env) (heap w)) = Some "" ->
  exists w' r,
    do_login env w = (w', Val r)
    /\ lr_success r = false
    /\ (lr_error r = Some "Student ID not configured"
        \/ lr_error r = Some "Password not configured")
    /\ requests (trace w') = requests (trace w)
    /\ heap w' = heap w.
Proof.
  intros Hkey Hunset. apply opt_truthy_false in Hunset.
  assert (Hc : has_credentials (le_cfg env) (heap w) = false).
  { unfold has_credentials.
    destruct Hkey as [-> | ->]; rewrite Hunset; [reflexivity | apply andb_false_r]. }
  destruct (do_login_skips env w Hc) as (line & msg & Hrun & Hmsg).
  unfold runs in Hrun. eexists _, _. split; [exact Hrun|]. simpl.
  rewrite requests_app. simpl. rewrite app_nil_r.
  repeat split; try reflexivity. destruct Hmsg as [-> | ->]; [now left | now right].
Qed.

(** C2: when [do_login] has sent its request and received the response
    (status, body), the result it returns is a success exactly when the
    status is 200 and the configured [success_check_string] is empty (or
    not configured) or occurs verbatim in the body. *)
Theorem do_login_success_iff (env : login_env) (w : world) (m : string) :
  has_credentials (le_cfg env) (heap w) = true ->
  Py.str_upper (default (PyStr "GET") (method (le_cfg env))) = Val m ->
  le_emit env = Val tt ->
  let res := response_of (le_http env) in
  let check := default "" (success_check_string (le_cfg env)) in
  exists w' r,
    do_login env w = (w', Val r)
    /\ lr_status r = rs_status res
    /\ (lr_success r = true <->
        rs_status res = 200 /\ (check = "" \/ occurs_in check (rs_body res))).
Proof.
  intros Hc Hm Hemit res check.
  destruct (do_login_attempt env w m Hc Hm) as (l1 & l2 & lv & l3 & msg & l4 & Hrun).
  rewrite Hemit in Hrun. unfold runs in Hrun.
  eexists _, _. split; [exact Hrun|]. simpl. split; [reflexivity|].
  fold res check. unfold login_success.
  destruct (Z.eqb_spec (rs_status res) 200) as [E|E].
  - destruct (str_truthy check) eqn:Et.
    + rewrite contains_spec. split.
      * intros H. split; [exact E | now right].
      * intros [_ [Hempty | H]]; [|exact H].
        rewrite Hempty in Et. discriminate.
    + apply str_truthy_false in Et. split; [intros _; split; [exact E | now left] | reflexivity].
  - split; [discriminate | intros [H _]; contradiction].
Qed.

(** C8, as stated, fails: two consecutive attempts 120 s apart (one backoff
    and one interval of the default configuration) send the same [v], hence
    the very same request; and when the configured parameters already hold
    a [v], the request has as many parameters as are configured, not one
    more. *)
Lemma volatile_parameter_repeats :
  let first := do_login (attempt_at 1700000000000) portal in
  let second := do_login (attempt_at 1700000120000) (fst first) in
  let with_v := {| heap := [Py.set "v" "7" account]; trace := [] |} in
  le_millis (attempt_at 1700000000000) <> le_millis (attempt_at 1700000120000)
  /\ (exists rq, requests (trace (fst second)) = [rq; rq])
  /\ (exists sent,
        heap (fst (do_login (attempt_at 1700000012345) with_v))
        = [Py.set "v" "7" account; sent]
        /\ length sent = length (Py.set "v" "7" account)).
Proof.
  vm_compute. split; [discriminate|].
  split; eexists; [reflexivity | split; reflexivity].
Qed.

(** C8, amended: for every login attempt that passes credential validation,
    the parameters sent are a fresh copy of the configured ones in which
    [v] is set to the decimal form of (epoch milliseconds mod 10000): the
    other keys are as configured, [v] is one more parameter unless it was
    configured already (then it is overwritten), the value lies in
    0..9999, another attempt sends the same [v] exactly when its
    milliseconds are congruent modulo 10000, and the configured dict itself
    is left as it was. *)
Theorem do_login_volatile_parameter (env : login_env) (w : world) (m : string) :
  has_credentials (le_cfg env) (heap w) = true ->
  Py.str_upper (default (PyStr "GET") (method (le_cfg env))) = Val m ->
  let cfg := le_cfg env in
  let configured := params_at cfg (heap w) in
  let v := Py.str (le_millis env mod 10000) in
  let sent := Py.set "v" v configured in
  exists w' out evs,
    do_login env w = (w', out)
    /\ trace w' = trace w ++ evs
    /\ requests evs = [request_for m (_build_login_url cfg) sent]
    /\ Py.get "v" sent = Some v
    /\ (forall k, k <> "v" -> Py.get k sent = Py.get k configured)
    /\ length sent = match Py.get "v" configured with
                     | Some _ => length configured
                     | None => S (length configured)
                     end
    /\ 0 <= le_millis env mod 10000 < 10000
    /\ (forall millis',
          Py.str (millis' mod 10000) = v <->
          millis' mod 10000 = le_millis env mod 10000)
    /\ heap w' = heap w ++ [sent]
    /\ params_at cfg (heap w') = configured.
Proof.
  intros Hc Hm cfg configured v sent.
  destruct (do_login_attempt env w m Hc Hm) as (l1 & l2 & lv & l3 & msg & l4 & Hrun).
  unfold runs in Hrun. eexists _, _, _. split; [exact Hrun|]. simpl.
  split; [reflexivity|]. split.
  { destruct (le_emit env); reflexivity. }
  split; [apply get_set_same|].
  split; [intros k Hk; apply get_set_other; congruence|].
  split; [apply length_set|].
  split; [apply Z.mod_pos_bound; lia|].
  split.
  { intros millis'. split; [apply str_inj | intros H; unfold v; now rewrite H]. }
  split; [reflexivity|].
  destruct (has_credentials_allocated _ _ Hc) as (l & p & Hl & Hp & Hat).
  unfold configured, params_at, cfg in *. rewrite Hl in *.
  now rewrite (lookup_app_l_Some _ _ _ _ Hp).
Qed.

(** C10, amended: for every configured method string whose upper-cased
    form is not exactly GET, the one request [do_login] sends is the POST
    request: the parameters URL-encoded in the body, the form content
    type, the bare URL.  The GET request (parameters in the query string) is the one
    sent exactly when the upper-cased method is GET, and a method that is
    not configured counts as GET: without one the request sent is the GET
    request.  [m] is the upper-cased method, configured or defaulted. *)
Theorem do_login_encoding_by_method (env : login_env) (w : world) (m : string) :
  has_credentials (le_cfg env) (heap w) = true ->
  Py.str_upper (default (PyStr "GET") (method (le_cfg env))) = Val m ->
  let cfg := le_cfg env in
  let url := _build_login_url cfg in
  let sent := Py.set "v" (Py.str (le_millis env mod 10000)) (params_at cfg (heap w)) in
  exists w' out evs rq,
    do_login env w = (w', out)
    /\ trace w' = trace w ++ evs
    /\ requests evs = [rq]
    /\ (forall s, method cfg = Some (PyStr s) -> m = upper s)
    /\ (method cfg = None -> m = "GET" /\ rq = get_request url sent)
    /\ (m <> "GET" ->
        rq = post_request url sent
        /\ rq_method rq = "POST"
        /\ rq_url rq = url
        /\ rq_data rq = Some (urlencode sent)
        /\ In ("Content-Type", "application/x-www-form-urlencoded") (rq_headers rq))
    /\ (rq = get_request url sent <-> m = "GET").
Proof.
  intros Hc Hm cfg url sent.
  destruct (do_login_attempt env w _ Hc Hm) as (l1 & l2 & lv & l3 & msg & l4 & Hrun).
  unfold runs in Hrun. eexists _, _, _, _. split; [exact Hrun|]. simpl.
  split; [reflexivity|]. split.
  { destruct (le_emit env); reflexivity. }
  fold cfg url sent. unfold request_for.
  split.
  { intros s Hs. fold cfg in Hm. rewrite Hs in Hm. simpl in Hm. congruence. }
  split.
  { intros Hnone. fold cfg in Hm. rewrite Hnone in Hm. simpl in Hm.
    injection Hm as <-. split; reflexivity. }
  destruct (String.eqb_spec m "GET") as [E|E].
  - split; [intros H; contradiction|]. split; [intros _; exact E | reflexivity].
  - split.
    + intros _. repeat split; try reflexivity. now left.
    + split; [discriminate | intros H; contradiction].
Qed.

(** Without a configured method the fallback is "GET", and the request is
    the GET one. *)
Lemma do_login_default_method (env : login_env) (w : world) :
  has_credentials (le_cfg env) (heap w) = true ->
  method (le_cfg env) = None ->
  let cfg := le_cfg env in
  let sent := Py.set "v" (Py.str (le_millis env mod 10000)) (params_at cfg (heap w)) in
  exists w' out evs,
    do_login env w = (w', out)
    /\ trace w' = trace w ++ evs
    /\ requests evs = [get_request (_build_login_url cfg) sent].
Proof.
  intros Hc Hmeth cfg sent.
  assert (Hm : Py.str_upper (default (PyStr "GET") (method (le_cfg env))) = Val "GET").
  { now rewrite Hmeth. }
  destruct (do_login_attempt env w _ Hc Hm) as (l1 & l2 & lv & l3 & msg & l4 & Hrun).
  unfold runs in Hrun. eexists _, _, _. split; [exact Hrun|]. simpl.
  split; [reflexivity|]. destruct (le_emit env); reflexivity.
Qed.

(** ** Prober *)

Lemma run_ping_runs (host : string) (timeout : Z) (proc : outcome Z) (w : world) :
  runs (_run_ping host timeout proc) w (heap w)
    (probe_events host timeout proc) (probe_result host proc).
Proof.
  unfold runs, _run_ping, try_except, bind, tell, log, await, ret, raise.
  destruct proc as [rc | [ | | kind msg]]; simpl;
    rewrite <- ?List.app_assoc; reflexivity.
Qed.

(** C7: for every host and timeout, however the ping subprocess ends (an
    exit code, the deadline of [wait_for] expiring, or an error raised while
    starting or awaiting it), [_run_ping] returns a result and raises
    nothing: the result is a success exactly when the exit code is 0, a
    deadline expiry gives a failure with diagnostic "timeout", an error a
    failure with the error's description.  (Cancellation of the calling
    task is not an outcome of the ping.) *)
Theorem run_ping_reports_as_data (host : string) (timeout : Z) (proc : outcome Z)
    (w : world) :
  proc <> Exn CancelledError ->
  exists w' r,
    _run_ping host timeout proc w = (w', Val r)
    /\ pr_host r = host
    /\ (pr_success r = true <-> proc = Val 0)
    /\ (proc = Exn TimeoutError -> pr_success r = false /\ pr_error r = Some "timeout")
    /\ (forall kind msg,
          proc = Exn (Error kind msg) -> pr_success r = false /\ pr_error r = Some msg)
    /\ heap w' = heap w.
Proof.
  intros Hproc. pose proof (run_ping_runs host timeout proc w) as Hrun.
  unfold runs in Hrun. rewrite Hrun. clear Hrun.
  destruct proc as [rc | [ | | kind msg]]; [| contradiction | |];
    simpl; eexists _, _; (split; [reflexivity|]); simpl.
  - split; [reflexivity|]. split.
    + rewrite Z.eqb_eq. split; [now intros -> | now intros [= ->]].
    + repeat split; discriminate.
  - split; [reflexivity|]. split; [split; discriminate|].
    repeat split; discriminate.
  - split; [reflexivity|]. split; [split; discriminate|].
    split; [discriminate|]. split; [|reflexivity].
    intros k m' [= _ ->]. split; reflexivity.
Qed.

(** ** Monitor loop *)

Lemma returns_val {A} (r : outcome A) : returns r = true -> exists a, r = Val a.
Proof. destruct r as [a|e]; [now exists a | discriminate]. Qed.

Lemma calls_app (fn : string) (evs evs' : list event) :
  calls fn (evs ++ evs') = (calls fn evs + calls fn evs')%nat.
Proof. unfold calls. now rewrite List.filter_app, length_app. Qed.

Lemma probes_app (evs evs' : list event) :
  probes (evs ++ evs') = (probes evs + probes evs')%nat.
Proof. unfold probes. now rewrite List.filter_app, length_app. Qed.

Lemma sleeps_app (evs evs' : list event) :
  sleeps (evs ++ evs') = sleeps evs ++ sleeps evs'.
Proof. unfold sleeps. apply omap_app. Qed.

(** A calm [do_login] returns; it is entered once and neither sleeps nor
    probes. *)
Lemma do_login_calm (env : login_env) (w : world) :
  login_calm env = true ->
  exists h evs r,
    runs (do_login env) w h evs (Val r)
    /\ calls "do_login" evs = 1%nat /\ sleeps evs = [] /\ probes evs = 0%nat.
Proof.
  unfold login_calm. intros H. apply andb_true_iff in H as [Hm He].
  apply returns_val in Hm as [m Hm]. apply returns_val in He as [[] He].
  destruct (has_credentials (le_cfg env) (heap w)) eqn:Hc.
  - destruct (do_login_attempt env w m Hc Hm) as (l1 & l2 & lv & l3 & msg & l4 & Hrun).
    rewrite He in Hrun. eexists _, _, _. split; [exact Hrun|].
    repeat split; reflexivity.
  - destruct (do_login_skips env w Hc) as (line & msg & Hrun & _).
    eexists _, _, _. split; [exact Hrun|]. repeat split; reflexivity.
Qed.

(** One calm cycle, event by event: the probe, what follows it up to the
    sleeps ([mid]: logs, the status emit and, when remediation fires, the
    login), the backoff sleep when remediation fired, the interval sleep. *)
Lemma monitor_cycle_calm (cf : Z) (env : cycle_env) (w : world) :
  calm env = true ->
  let cfg := ce_cfg env in
  let host := str_or (ping_target cfg) DEFAULT_PING_TARGET in
  exists h mid,
    runs (monitor_cycle cf env) w h
      (probe_events host (timeout_of cfg) (ce_ping env) ++ mid
       ++ (if fires cf env then [Sleep (backoff_of cfg)] else [])
       ++ [Sleep (interval_of cfg)])
      (Val (next_failures cf env))
    /\ calls "do_login" mid = (if fires cf env then 1 else 0)%nat
    /\ sleeps mid = [] /\ probes mid = 0%nat.
Proof.
  intros H. cbv zeta. unfold calm, settings_ok in H.
  repeat (apply andb_true_iff in H as [H ?]).
  repeat match goal with
         | Hr : returns _ = true |- _ => apply returns_val in Hr as [? Hr]
         end.
  set (cfg := ce_cfg env) in *.
  set (host := str_or (ping_target cfg) DEFAULT_PING_TARGET).
  unfold fires, next_failures, interval_of, timeout_of, threshold_of, backoff_of,
    effective. fold cfg.
  unfold runs, monitor_cycle, bind, get_config, int_setting, ret. simpl. fold cfg host.
  repeat match goal with
         | Hs : setting _ _ = Val _ |- _ => rewrite !Hs; simpl; clear Hs
         end.
  match goal with
  | |- context [_run_ping ?a ?b ?c ?d] =>
      pose proof (run_ping_runs a b c d) as Hp; unfold runs in Hp; rewrite Hp; clear Hp
  end.
  match goal with
  | He : ce_emit env = _, Hb : ce_backoff_sleep env = _, Hi : ce_interval_sleep env = _
    |- _ => rewrite He, Hb, Hi; clear He Hb Hi
  end.
  destruct (ce_ping env) as [rc | [ | | kind msg]]; simpl in *; try discriminate.
  1: destruct (rc =? 0); simpl.
  1: { exists (heap w), (success_events host cf (ce_now env)).
       unfold success_events. destruct (cf >? 0); simpl;
         rewrite <- ?List.app_assoc; repeat split; reflexivity. }
  all: destruct (cf + 1 >=? x3); simpl.
  all: try (exists (heap w), (failure_events host cf x3 (ce_now env));
            rewrite <- ?List.app_assoc; repeat split; reflexivity).
  all: match goal with
       | |- context [do_login ?e ?w0] =>
           destruct (do_login_calm e w0) as (h & evs & r & Hrun & Hcalls & Hsl & Hpr);
             [assumption|]; unfold runs in Hrun; rewrite Hrun; clear Hrun
       end.
  all: exists h, (failure_events host cf x3 (ce_now env)
                  ++ Log Warning "Failure threshold reached, attempting login" :: evs).
  all: rewrite calls_app, sleeps_app, probes_app.
  all: unfold calls, sleeps, probes in *; simpl in *.
  all: repeat split; try assumption.
  all: unfold failure_events; rewrite <- ?List.app_assoc; reflexivity.
Qed.

Lemma geb_false (a b : Z) : a < b -> (a >=? b) = false.
Proof. intros H. rewrite Z.geb_leb. apply Z.leb_gt. exact H. Qed.

Lemma geb_true (a b : Z) : b <= a -> (a >=? b) = true.
Proof. intros H. rewrite Z.geb_leb. apply Z.leb_le. exact H. Qed.

Lemma effective_int (z d : Z) : z <> 0 -> effective (Some (PyInt z)) d = z.
Proof.
  intros Hz. unfold effective, setting, or_else. simpl.
  destruct (Z.eqb_spec z 0); [contradiction | reflexivity].
Qed.

Lemma next_failures_nonneg (cf : Z) (env : cycle_env) :
  0 <= cf -> 0 <= next_failures cf env.
Proof.
  unfold next_failures. intros H.
  destruct (probe_ok (ce_ping env)); [destruct (Z.gtb_spec cf 0); lia|].
  destruct (cf + 1 >=? threshold_of (ce_cfg env)); lia.
Qed.

Lemma next_failures_below (cf : Z) (env : cycle_env) :
  0 <= cf -> 1 <= threshold_of (ce_cfg env) ->
  next_failures cf env < threshold_of (ce_cfg env).
Proof.
  unfold next_failures. intros Hcf Hthr.
  destruct (probe_ok (ce_ping env)); [destruct (Z.gtb_spec cf 0); lia|].
  destruct (cf + 1 >=? threshold_of (ce_cfg env)) eqn:E; [lia|].
  rewrite Z.geb_leb in E. apply Z.leb_gt in E. exact E.
Qed.

Lemma probe_events_quiet (host : string) (timeout : Z) (proc : outcome Z) :
  exists argv deadline logs,
    probe_events host timeout proc = Exec argv deadline :: logs
    /\ calls "do_login" logs = 0%nat /\ sleeps logs = [] /\ probes logs = 0%nat.
Proof.
  unfold probe_events. eexists _, _, _. split; [reflexivity|].
  destruct proc as [rc | [ | | kind msg]]; repeat split; reflexivity.
Qed.

Lemma monitor_loop_app (pre rest : list cycle_env) (cf : Z) (w : world) :
  monitor_loop cf (pre ++ rest) w
  = bind (monitor_loop cf pre) (fun cf' => monitor_loop cf' rest) w.
Proof.
  revert cf w. induction pre as [|env pre IH]; intros cf w; simpl.
  - reflexivity.
  - unfold bind. destruct (monitor_cycle cf env w) as [w1 [cf1|e]].
    + rewrite IH. reflexivity.
    + reflexivity.
Qed.

(** Over calm cycles the loop keeps running, its counter never goes below
    zero, and under a threshold [t >= 1] that stays the same it stays
    below [t] from one cycle to the next. *)
Lemma monitor_loop_calm (envs : list cycle_env) (cf : Z) (w : world) :
  Forall (fun env => calm env = true) envs ->
  0 <= cf ->
  exists h evs cf',
    runs (monitor_loop cf envs) w h evs (Val cf') /\ 0 <= cf'
    /\ (forall t, 1 <= t -> cf < t ->
         Forall (fun env => threshold_of (ce_cfg env) = t) envs -> cf' < t).
Proof.
  revert cf w. induction envs as [|env envs IH]; intros cf w Hcalm Hcf.
  - exists (heap w), [], cf. split; [apply runs_ret|]. split; [exact Hcf|].
    intros t _ Hlt _. exact Hlt.
  - apply Forall_cons in Hcalm as [Henv Hcalm].
    destruct (monitor_cycle_calm cf env w Henv) as (h1 & mid & Hrun & _).
    match type of Hrun with
    | runs _ _ _ ?evs1 _ =>
        destruct (IH (next_failures cf env) {| heap := h1; trace := trace w ++ evs1 |}
                    Hcalm (next_failures_nonneg cf env Hcf))
          as (h2 & evs2 & cf' & Hrest & Hcf' & Hbelow)
    end.
    eexists _, _, cf'. split; [|split; [exact Hcf'|]].
    + simpl. eapply runs_bind; [exact Hrun | exact Hrest].
    + intros t Ht _ Hthr. apply Forall_cons in Hthr as [Hthr Hrest'].
      apply (Hbelow t Ht); [|exact Hrest'].
      rewrite <- Hthr. apply next_failures_below; [exact Hcf | now rewrite Hthr].
Qed.

(** A failed probe below the threshold: no login, one more failure. *)
Lemma monitor_loop_counting (t : Z) (envs : list cycle_env) (cf : Z) (w : world) :
  Forall (fun env => calm env = true /\ probe_ok (ce_ping env) = false
                     /\ threshold_of (ce_cfg env) = t) envs ->
  cf + Z.of_nat (length envs) < t ->
  exists h evs,
    runs (monitor_loop cf envs) w h evs (Val (cf + Z.of_nat (length envs)))
    /\ calls "do_login" evs = 0%nat.
Proof.
  revert cf w. induction envs as [|env envs IH]; intros cf w Hall Hlt.
  - exists (heap w), []. rewrite Z.add_0_r. split; [apply runs_ret | reflexivity].
  - apply Forall_cons in Hall as [(Hcalm & Hfail & Hthr) Hall].
    simpl length in Hlt. rewrite Nat2Z.inj_succ in Hlt.
    destruct (monitor_cycle_calm cf env w Hcalm) as (h1 & mid & Hrun & Hcalls & _).
    assert (Hnofire : fires cf env = false).
    { unfold fires. rewrite Hfail, Hthr. simpl. apply geb_false. lia. }
    assert (Hnext : next_failures cf env = cf + 1).
    { unfold next_failures. rewrite Hfail, Hthr, geb_false by lia. reflexivity. }
    rewrite Hnofire in Hrun, Hcalls. rewrite Hnext in Hrun.
    match type of Hrun with
    | runs _ _ _ ?evs1 _ =>
        destruct (IH (cf + 1) {| heap := h1; trace := trace w ++ evs1 |} Hall ltac:(lia))
          as (h2 & evs2 & Hrest & Hcalls2)
    end.
    eexists _, _. split.
    + simpl monitor_loop. eapply runs_bind; [exact Hrun|].
      simpl length. rewrite Nat2Z.inj_succ.
      replace (cf + Z.succ (Z.of_nat (length envs)))
        with (cf + 1 + Z.of_nat (length envs)) by lia.
      exact Hrest.
    + destruct (probe_events_quiet (str_or (ping_target (ce_cfg env)) DEFAULT_PING_TARGET)
                  (timeout_of (ce_cfg env)) (ce_ping env))
        as (argv & dl & logs & -> & Hl & _).
      rewrite !calls_app, Hcalls, Hcalls2.
      unfold calls in *. simpl. rewrite Hl. reflexivity.
Qed.

(** C4: with a configured threshold [t >= 1], [t] consecutive failed probes
    (counted from 0) make the loop call [do_login] exactly once: not in the
    first [t - 1] cycles, which leave the counter at [t - 1], and once in
    the cycle of the [t]-th failure, which leaves the counter at 0. *)
Theorem threshold_triggers_login_once (t : Z) (envs : list cycle_env)
    (last : cycle_env) (w : world) :
  1 <= t ->
  Z.of_nat (length envs) = t - 1 ->
  Forall (fun env => calm env = true /\ probe_ok (ce_ping env) = false
                     /\ consecutive_failures_threshold (ce_cfg env) = Some (PyInt t))
    (envs ++ [last]) ->
  exists w1 evs1 w2 evs2,
    monitor_loop 0 envs w = (w1, Val (t - 1))
    /\ trace w1 = trace w ++ evs1 /\ calls "do_login" evs1 = 0%nat
    /\ monitor_cycle (t - 1) last w1 = (w2, Val 0)
    /\ trace w2 = trace w1 ++ evs2 /\ calls "do_login" evs2 = 1%nat
    /\ monitor_loop 0 (envs ++ [last]) w = (w2, Val 0).
Proof.
  intros Ht Hlen Hall.
  assert (Hall' : Forall (fun env => calm env = true /\ probe_ok (ce_ping env) = false
                                     /\ threshold_of (ce_cfg env) = t) (envs ++ [last])).
  { eapply Forall_impl; [exact Hall|]. intros env (Hc & Hp & Hthr).
    repeat split; try assumption. unfold threshold_of. rewrite Hthr.
    apply effective_int. lia. }
  clear Hall. apply Forall_app in Hall' as [Hpre Hlast].
  apply Forall_cons in Hlast as [(Hcalm & Hfail & Hthr) _].
  destruct (monitor_loop_counting t envs 0 w Hpre ltac:(lia)) as (h1 & evs1 & Hrun1 & Hc1).
  rewrite Z.add_0_l, Hlen in Hrun1.
  set (w1 := {| heap := h1; trace := trace w ++ evs1 |}) in *.
  destruct (monitor_cycle_calm (t - 1) last w1 Hcalm) as (h2 & mid & Hrun2 & Hc2 & _).
  assert (Hfire : fires (t - 1) last = true).
  { unfold fires. rewrite Hfail, Hthr. simpl. apply geb_true. lia. }
  assert (Hnext : next_failures (t - 1) last = 0).
  { unfold next_failures. rewrite Hfail, Hthr, geb_true by lia. reflexivity. }
  rewrite Hfire in Hrun2, Hc2. rewrite Hnext in Hrun2.
  unfold runs in Hrun1, Hrun2.
  eexists w1, evs1, _, _. split; [exact Hrun1|].
  split; [reflexivity|]. split; [exact Hc1|]. split; [exact Hrun2|].
  split; [reflexivity|]. split.
  - destruct (probe_events_quiet (str_or (ping_target (ce_cfg last)) DEFAULT_PING_TARGET)
                (timeout_of (ce_cfg last)) (ce_ping last))
      as (argv & dl & logs & -> & Hl & _).
    rewrite !calls_app, Hc2. unfold calls in *. simpl. rewrite Hl. reflexivity.
  - rewrite monitor_loop_app. unfold bind. rewrite Hrun1. simpl.
    unfold bind. fold w1. rewrite Hrun2. reflexivity.
Qed.

(** C5: in every cycle in which remediation fires, with configured
    [backoff_attempt_sec = b] and [ping_interval_sec = i] (positive
    integers), what follows the triggering probe ends with the two sleeps
    [b] then [i]; nothing before them in the cycle sleeps or probes, so the
    next probe, which opens the next cycle, comes [b + i] seconds of sleep
    after the triggering one. *)
Theorem remediation_sleeps_backoff_then_interval (cf : Z) (env : cycle_env)
    (w : world) (b i : Z) :
  calm env = true ->
  fires cf env = true ->
  backoff_attempt_sec (ce_cfg env) = Some (PyInt b) -> 0 < b ->
  ping_interval_sec (ce_cfg env) = Some (PyInt i) -> 0 < i ->
  exists w' cf' argv deadline mid,
    monitor_cycle cf env w = (w', Val cf')
    /\ trace w' = trace w ++ Exec argv deadline :: mid ++ [Sleep b; Sleep i]
    /\ calls "do_login" mid = 1%nat /\ sleeps mid = [] /\ probes mid = 0%nat
    /\ sleeps (Exec argv deadline :: mid ++ [Sleep b; Sleep i]) = [b; i].
Proof.
  intros Hcalm Hfire Hb Hbpos Hi Hipos.
  destruct (monitor_cycle_calm cf env w Hcalm) as (h & mid & Hrun & Hc & Hs & Hp).
  rewrite Hfire in Hrun, Hc.
  unfold backoff_of, interval_of in Hrun. rewrite Hb, Hi in Hrun.
  rewrite !effective_int in Hrun by lia.
  destruct (probe_events_quiet (str_or (ping_target (ce_cfg env)) DEFAULT_PING_TARGET)
              (timeout_of (ce_cfg env)) (ce_ping env))
    as (argv & dl & logs & Hev & Hlc & Hls & Hlp).
  rewrite Hev in Hrun. unfold runs in Hrun.
  exists {| heap := h; trace := trace w ++ Exec argv dl :: (logs ++ mid) ++ [Sleep b; Sleep i] |},
    (next_failures cf env), argv, dl, (logs ++ mid).
  split.
  { rewrite Hrun. simpl. rewrite <- !List.app_assoc. reflexivity. }
  split; [reflexivity|].
  rewrite calls_app, sleeps_app, probes_app, Hlc, Hls, Hlp, Hc, Hs, Hp.
  repeat split; try reflexivity.
  change (Exec argv dl :: (logs ++ mid) ++ [Sleep b; Sleep i])
    with ([Exec argv dl] ++ (logs ++ mid) ++ [Sleep b; Sleep i]).
  rewrite !sleeps_app, Hls, Hs. reflexivity.
Qed.

(** C9: in every run of the loop over cycles in which nothing raises, each
    cycle is entered with a counter [cf >= 0] and left with a counter
    [cf' >= 0] that is 0 when the probe succeeded or remediation fired in
    this cycle (which it does exactly when the probe failed and
    [cf + 1] reached the threshold) and [cf + 1] otherwise; so, for a
    threshold of at least 1, no cycle ends with the counter at or above the
    threshold, and while the threshold stays the same none is entered with
    it there either: the counter reaches the threshold only inside the
    cycle in which remediation fires. *)
Theorem consecutive_failures_invariant (pre : list cycle_env) (env : cycle_env)
    (w : world) :
  Forall (fun e => calm e = true) (pre ++ [env]) ->
  exists w1 cf w2 cf' evs,
    monitor_loop 0 pre w = (w1, Val cf)
    /\ monitor_cycle cf env w1 = (w2, Val cf')
    /\ trace w2 = trace w1 ++ evs
    /\ 0 <= cf /\ 0 <= cf'
    /\ cf' = counter_spec cf (probe_ok (ce_ping env)) (fires cf env)
    /\ calls "do_login" evs = (if fires cf env then 1 else 0)%nat
    /\ (1 <= threshold_of (ce_cfg env) -> cf' < threshold_of (ce_cfg env))
    /\ (1 <= threshold_of (ce_cfg env) ->
        Forall (fun e => threshold_of (ce_cfg e) = threshold_of (ce_cfg env)) pre ->
        cf < threshold_of (ce_cfg env)).
Proof.
  intros Hall. apply Forall_app in Hall as [Hpre Hlast].
  apply Forall_cons in Hlast as [Hcalm _].
  destruct (monitor_loop_calm pre 0 w Hpre ltac:(lia))
    as (h1 & evs1 & cf & Hrun1 & Hcf & Hbelow).
  set (w1 := {| heap := h1; trace := trace w ++ evs1 |}).
  destruct (monitor_cycle_calm cf env w1 Hcalm) as (h2 & mid & Hrun2 & Hc2 & _).
  unfold runs in Hrun1, Hrun2.
  eexists w1, cf, _, _, _. split; [exact Hrun1|]. split; [exact Hrun2|].
  split; [reflexivity|]. split; [exact Hcf|].
  split; [now apply next_failures_nonneg|].
  split; [|split; [|split]].
  - unfold next_failures, counter_spec, fires.
    destruct (probe_ok (ce_ping env)); simpl.
    + destruct (Z.gtb_spec cf 0); lia.
    + now destruct (cf + 1 >=? threshold_of (ce_cfg env)).
  - destruct (probe_events_quiet (str_or (ping_target (ce_cfg env)) DEFAULT_PING_TARGET)
                (timeout_of (ce_cfg env)) (ce_ping env))
      as (argv & dl & logs & -> & Hl & _).
    rewrite !calls_app, Hc2. unfold calls in *. simpl. rewrite Hl.
    destruct (fires cf env); reflexivity.
  - intros Hthr. now apply next_failures_below.
  - intros Hthr Hsame. apply (Hbelow _ Hthr); [lia | exact Hsame].
Qed.

(** When a cycle raises anything but a cancellation, the handler that
    encloses the whole [while True] logs it, sleeps 5 s and falls off the
    end of the coroutine: the cycles that would follow are never run. *)
Lemma ping_monitor_returns_on_fault (pre : list cycle_env) (bad : cycle_env)
    (post : list cycle_env) (pause : outcome unit) (w : world)
    (h1 : list dict) (evs1 : list event) (cf : Z)
    (h2 : list dict) (evs2 : list event) (e : exn) :
  let started := [Log Info "Ping monitor task started"] in
  runs (monitor_loop 0 pre) {| heap := heap w; trace := trace w ++ started |}
    h1 evs1 (Val cf) ->
  runs (monitor_cycle cf bad) {| heap := h1; trace := (trace w ++ started) ++ evs1 |}
    h2 evs2 (Exn e) ->
  is_Exception e = true ->
  runs (_ping_monitor (pre ++ bad :: post) pause) w h2
    (started ++ evs1 ++ evs2
     ++ [Log Err ("Ping monitor error: " +:+ str_exn e); Sleep 5])
    (match pause with
     | Val _ => Val Returned
     | Exn e' => Exn e'
     end).
Proof.
  intros started Hpre Hbad He. unfold runs in *. simpl in *.
  unfold _ping_monitor, bind, log, tell, try_except. simpl. fold started.
  rewrite monitor_loop_app. unfold bind at 1. rewrite Hpre.
  simpl. unfold bind at 1. rewrite Hbad.
  destruct e as [ | | kind msg]; [discriminate | |];
    destruct pause as [[]|e']; simpl; rewrite <- !List.app_assoc; reflexivity.
Qed.

(** C1, on the code: with ["method": null] configured, three failed probes
    make the loop call [do_login], which raises [AttributeError]; the
    monitor logs the error, sleeps 5 s and returns.  The two cycles that
    would follow (the network is back) are never run: three probes in all,
    and the trace ends with the error line and the pause. *)
Theorem ping_monitor_stops_after_login_fault :
  let down := cycle_at null_method_config (Val 1) in
  let up := cycle_at null_method_config (Val 0) in
  let run :=
    _ping_monitor [down 1000; down 1062; down 1124; up 1186; up 1246] (Val tt) portal in
  snd run = Val Returned
  /\ probes (trace (fst run)) = 3%nat
  /\ skipn 14 (trace (fst run))
     = [Log Err "Ping monitor error: 'NoneType' object has no attribute 'upper'";
        Sleep 5].
Proof. vm_compute. repeat split; reflexivity. Qed.

(** ** Controller *)

Lemma filter_done (l : list task) :
  Forall (fun t => done t = true) l -> List.filter (fun t => negb (done t)) l = [].
Proof.
  induction 1 as [|t l Ht _ IH]; simpl; [reflexivity|]. now rewrite Ht.
Qed.

Lemma settled_running (p : plugin) (l : list task) (t : task) :
  tasks p = l ++ [t] -> _monitor_task p = Some (length l) ->
  is_monitor_running p = negb (done t).
Proof.
  intros Ht Hh. unfold is_monitor_running. now rewrite Hh, Ht, lookup_fresh.
Qed.

Lemma settled_active (p : plugin) :
  settled p -> active p = if is_monitor_running p then 1%nat else 0%nat.
Proof.
  unfold active. intros [[Ht Hh] | (l & t & Ht & Hl & Hh)].
  - unfold is_monitor_running. now rewrite Ht, Hh.
  - rewrite (settled_running p l t Ht Hh), Ht, List.filter_app, length_app,
      (filter_done l Hl). simpl. now destruct (done t).
Qed.

Lemma settled_init : settled init.
Proof. left. split; reflexivity. Qed.

Lemma settled_step (p : plugin) (o : op) : settled p -> settled (step p o).
Proof.
  intros Hp. destruct o as [ | | h]; simpl.
  - unfold start_ping_monitor. destruct (is_monitor_running p) eqn:Hrun; [exact Hp|].
    right. simpl. destruct Hp as [[Ht Hh] | (l & t & Ht & Hl & Hh)].
    + exists [], Pending. rewrite Ht. repeat split. constructor.
    + exists (l ++ [t]), Pending. rewrite Ht. repeat split.
      rewrite (settled_running p l t Ht Hh) in Hrun.
      apply Forall_app. split; [exact Hl|]. constructor; [|constructor].
      now destruct (done t).
  - unfold _unload. destruct (is_monitor_running p) eqn:Hrun; [|exact Hp].
    destruct Hp as [[Ht Hh] | (l & t & Ht & Hl & Hh)].
    + unfold is_monitor_running in Hrun. rewrite Hh in Hrun. discriminate.
    + right. simpl. exists l, (cancel t). rewrite Hh, Ht, alter_fresh. repeat split.
      exact Hl.
  - destruct Hp as [[Ht Hh] | (l & t & Ht & Hl & Hh)].
    + left. simpl. rewrite Ht. split; [reflexivity | exact Hh].
    + right. simpl. rewrite Ht, alter_app. case_decide.
      * exists (alter (fun _ => Finished) h l), t. rewrite length_alter.
        repeat split; [|exact Hh]. apply Forall_alter; [exact Hl | reflexivity].
      * exists l. destruct (h - length l)%nat; simpl; eexists; repeat split;
          assumption.
Qed.

Lemma settled_run (ops : list op) : settled (run ops).
Proof.
  unfold run. generalize settled_init. generalize init.
  induction ops as [|o ops IH]; intros p Hp; simpl; [exact Hp|].
  apply IH, settled_step, Hp.
Qed.

(** X21: after any sequence of [start_ping_monitor] calls, interleaved in
    any way with [_unload] calls and with monitor tasks finishing, and with
    no call of [stop_ping_monitor] among them, at most one monitor task is
    not done; and while one is not done, a call of [start_ping_monitor]
    changes nothing (it only logs that the monitor is already running), so
    no second task is created. *)
Theorem at_most_one_monitor (ops : list op) :
  (active (run ops) <= 1)%nat
  /\ ((0 < active (run ops))%nat ->
      start_ping_monitor (run ops)
      = (run ops, [Log Warning "Monitor already running"]))
  /\ (active (run (ops ++ [Start])) <= 1)%nat
  /\ ((active (run ops) = 0)%nat -> active (run (ops ++ [Start])) = 1%nat).
Proof.
  pose proof (settled_active _ (settled_run ops)) as Ha.
  pose proof (settled_active _ (settled_run (ops ++ [Start]))) as Ha'.
  split; [|split; [|split]].
  - rewrite Ha. destruct (is_monitor_running (run ops)); lia.
  - intros Hlive. unfold start_ping_monitor.
    destruct (is_monitor_running (run ops)); [reflexivity | lia].
  - rewrite Ha'. destruct (is_monitor_running (run (ops ++ [Start]))); lia.
  - intros Hnone. unfold run in *. rewrite fold_left_app. simpl.
    unfold start_ping_monitor.
    destruct (is_monitor_running (fold_left step ops init)) eqn:Hrun; [lia|].
    unfold active. simpl. rewrite List.filter_app, length_app. simpl.
    unfold active in Hnone. rewrite Hnone. reflexivity.
Qed.

(** Without a stop call the process is the plugin of [run]. *)
Lemma reach_do (ops : list op) :
  reach (map Do ops) = {| plug := run ops; waiting := [] |}.
Proof.
  unfold reach, run, boot. generalize init.
  induction ops as [|o ops IH]; intros p; simpl; [reflexivity | apply IH].
Qed.

(** C6: the guard of [start_ping_monitor] keeps a second monitor from
    being started beside the one of the handle, but a stop call that
    resumes after another start drops the handle of a live monitor.  After
    [stop_race] one monitor task is not done, no stop call is left
    waiting and [is_monitor_running] is false; the start that follows is
    no no-op: it creates a second task, and two monitor tasks are not
    done. *)
Theorem second_monitor_after_stop_race :
  tasks (plug (reach stop_race)) = [Finished; Pending]
  /\ _monitor_task (plug (reach stop_race)) = None
  /\ waiting (reach stop_race) = []
  /\ active (plug (reach stop_race)) = 1%nat
  /\ is_monitor_running (plug (reach stop_race)) = false
  /\ start_ping_monitor (plug (reach stop_race))
     = (plug (reach (stop_race ++ [Do Start])), [Log Info "Ping monitor started"])
  /\ tasks (plug (reach (stop_race ++ [Do Start]))) = [Finished; Pending; Pending]
  /\ active (plug (reach (stop_race ++ [Do Start]))) = 2%nat.
Proof. repeat split; reflexivity. Qed.

(** ** The theorems at concrete inputs *)

Lemma do_login_missing_credential_witness :
  Py.get "DDDDD" (params_at (le_cfg (attempt_at 0)) (heap fresh_install)) = Some ""
  /\ exists w' r,
       do_login (attempt_at 0) fresh_install = (w', Val r)
       /\ lr_success r = false
       /\ requests (trace w') = [].
Proof.
  split; [reflexivity|].
  destruct (do_login_missing_credential (attempt_at 0) fresh_install "DDDDD")
    as (w' & r & Hrun & Hfail & _ & Hreq & _).
  - left. reflexivity.
  - right. reflexivity.
  - exists w', r. repeat split; assumption.
Defined.

Lemma do_login_success_iff_witness :
  has_credentials (le_cfg post_attempt) (heap portal) = true
  /\ exists w' r,
       do_login post_attempt portal = (w', Val r)
       /\ lr_status r = 200
       /\ (lr_success r = true <->
           200 = 200 /\ ("success" = "" \/ occurs_in "success" "login success")).
Proof.
  split; [reflexivity|].
  exact (do_login_success_iff post_attempt portal "POST" eq_refl eq_refl eq_refl).
Defined.

Lemma do_login_volatile_parameter_witness :
  has_credentials (le_cfg (attempt_at 1700000012345)) (heap portal) = true
  /\ exists w' out evs,
       do_login (attempt_at 1700000012345) portal = (w', out)
       /\ trace w' = trace portal ++ evs
       /\ heap w' = heap portal ++ [Py.set "v" (Py.str 2345) account].
Proof.
  split; [reflexivity|].
  destruct (do_login_volatile_parameter (attempt_at 1700000012345) portal "GET"
              eq_refl eq_refl)
    as (w' & out & evs & Hrun & Htr & _ & _ & _ & _ & _ & _ & Hheap & _).
  exists w', out, evs. repeat split; assumption.
Defined.

Lemma do_login_encoding_by_method_witness :
  exists w' out evs rq,
    do_login post_attempt portal = (w', out)
    /\ requests evs = [rq]
    /\ rq_method rq = "POST"
    /\ rq_url rq = "https://221.1.64.43/drcom/login".
Proof.
  destruct (do_login_encoding_by_method post_attempt portal "POST" eq_refl eq_refl)
    as (w' & out & evs & rq & Hrun & _ & Hreq & _ & _ & Hpost & _).
  destruct Hpost as (_ & Hm & Hurl & _); [discriminate|].
  exists w', out, evs, rq. repeat split; assumption.
Defined.

(** C10 as first stated counts a missing method among those sent as POST:
    without a ["method"] entry the request goes out as a GET request, the
    parameters in the query string, no body. *)
Lemma missing_method_is_sent_as_get :
  method (le_cfg no_method_attempt) = None
  /\ has_credentials (le_cfg no_method_attempt) (heap portal) = true
  /\ exists rq,
       requests (trace (fst (do_login no_method_attempt portal))) = [rq]
       /\ rq_method rq = "GET"
       /\ rq_data rq = None
       /\ rq_url rq
          = "http://221.1.64.43/drcom/login?" +:+ urlencode (Py.set "v" "2345" account).
Proof.
  vm_compute. split; [reflexivity|]. split; [reflexivity|].
  eexists. split; [reflexivity|]. repeat split; reflexivity.
Qed.

Lemma run_ping_reports_as_data_witness :
  exists w' r,
    _run_ping "8.8.8.8" 2 (Exn TimeoutError) portal = (w', Val r)
    /\ pr_success r = false /\ pr_error r = Some "timeout".
Proof.
  destruct (run_ping_reports_as_data "8.8.8.8" 2 (Exn TimeoutError) portal)
    as (w' & r & Hrun & _ & _ & Htimeout & _).
  - discriminate.
  - exists w', r. split; [exact Hrun | exact (Htimeout eq_refl)].
Defined.

Lemma threshold_triggers_login_once_witness :
  exists w1 evs1 w2 evs2,
    monitor_loop 0 [down 1000; down 1062] portal = (w1, Val 2)
    /\ trace w1 = trace portal ++ evs1 /\ calls "do_login" evs1 = 0%nat
    /\ monitor_cycle 2 (down 1124) w1 = (w2, Val 0)
    /\ trace w2 = trace w1 ++ evs2 /\ calls "do_login" evs2 = 1%nat.
Proof.
  destruct (threshold_triggers_login_once 3 [down 1000; down 1062] (down 1124) portal)
    as (w1 & evs1 & w2 & evs2 & H1 & H2 & H3 & H4 & H5 & H6 & _).
  - lia.
  - reflexivity.
  - repeat constructor.
  - exists w1, evs1, w2, evs2. repeat split; assumption.
Defined.

Lemma remediation_sleeps_backoff_then_interval_witness :
  fires 2 (down 1124) = true
  /\ exists w' cf' argv deadline mid,
       monitor_cycle 2 (down 1124) portal = (w', Val cf')
       /\ trace w' = trace portal ++ Exec argv deadline :: mid ++ [Sleep 60; Sleep 60].
Proof.
  split; [reflexivity|].
  destruct (remediation_sleeps_backoff_then_interval 2 (down 1124) portal 60 60)
    as (w' & cf' & argv & dl & mid & Hrun & Htr & _); try reflexivity.
  exists w', cf', argv, dl, mid. split; assumption.
Defined.

Lemma consecutive_failures_invariant_witness :
  exists w1 cf w2 cf',
    monitor_loop 0 [down 1000; down 1062] portal = (w1, Val cf)
    /\ monitor_cycle cf (down 1124) w1 = (w2, Val cf')
    /\ 0 <= cf' /\ cf' < 3.
Proof.
  destruct (consecutive_failures_invariant [down 1000; down 1062] (down 1124) portal)
    as (w1 & cf & w2 & cf' & evs & H1 & H2 & _ & _ & H5 & _ & _ & H8 & _).
  - repeat constructor.
  - exists w1, cf, w2, cf'. repeat split; try assumption. apply H8. vm_compute. discriminate.
Defined.

(** * Further properties *)

(** ** Configuration file *)

Section StoreProperties.

Context {document : Type} (dflt : document) (dir : string).

Local Ltac store_compute :=
  unfold Store.get_config, Store.save_config, Store.reset_config, Store.dtry,
    Store._config_path, Store._config_dir, Store.dbind, Store.attempt, Store.dret,
    Store.path_exists, Store.dump, Store.load, Store.remove, Store.dlog; simpl.

(** X1: on a working file system, [get_config] without a file writes the
    defaults, logs where, and returns them; called again it returns the
    same and changes nothing any more. *)
Theorem get_config_creates_defaults_once (j : list event) :
  exists line d1,
    Store.get_config dflt dir Store.works {| Store.stored := Store.Absent; Store.journal := j |}
    = (d1, Val dflt)
    /\ d1 = {| Store.stored := Store.Holds dflt; Store.journal := j ++ [Log Info line] |}
    /\ Store.get_config dflt dir Store.works d1 = (d1, Val dflt).
Proof.
  eexists _, _. split; [|split]; [store_compute; reflexivity.. ].
Qed.

(** X2: on a working file system, whatever the file was before, what
    [save_config] saved is what the next [get_config] returns, and reading
    leaves the file as saved. *)
Theorem save_config_then_get_config (c : document) (f : Store.file document)
    (j : list event) :
  exists d1,
    Store.save_config dir Store.works c {| Store.stored := f; Store.journal := j |}
    = (d1, Val tt)
    /\ Store.stored d1 = Store.Holds c
    /\ Store.get_config dflt dir Store.works d1 = (d1, Val c).
Proof.
  eexists. split; [|split]; [store_compute; reflexivity.. ].
Qed.

(** X3: whatever the file system does, [get_config] raises nothing and
    returns either the stored document or the defaults (always the
    defaults for a file [json.load] rejects); it only ever writes when
    there is no file, and then nothing but the defaults: a file that is
    there is left as it is, readable or not. *)
Theorem get_config_never_raises (x : Store.io) (d : Store.disk document) :
  exists d' c,
    Store.get_config dflt dir x d = (d', Val c)
    /\ (c = dflt \/ Store.stored d = Store.Holds c)
    /\ (Store.stored d = Store.Damaged -> c = dflt)
    /\ (Store.stored d <> Store.Absent -> Store.stored d' = Store.stored d)
    /\ (Store.stored d' = Store.stored d
        \/ Store.stored d' = Store.Holds dflt
        \/ Store.stored d' = Store.Damaged).
Proof.
  destruct d as [f j]. destruct x as [mk rd wr dp rm].
  store_compute.
  destruct mk, f, rd, wr, dp; simpl; eexists _, _;
    (split; [reflexivity|]); simpl;
    repeat split; try (intros; congruence); auto.
Qed.

(** X4: whatever the file system does, [reset_config] raises nothing and
    returns the defaults; where every call works the file holds the
    defaults afterwards, whatever it was, and [get_config] returns them. *)
Theorem reset_config_returns_defaults (x : Store.io) (d : Store.disk document) :
  exists d',
    Store.reset_config dflt dir x d = (d', Val dflt)
    /\ (x = Store.works ->
        Store.stored d' = Store.Holds dflt
        /\ Store.get_config dflt dir Store.works d' = (d', Val dflt)).
Proof.
  destruct d as [f j]. destruct x as [mk rd wr dp rm].
  store_compute.
  destruct mk, f, rm, wr, dp; simpl; eexists;
    (split; [reflexivity|]); intros H; try discriminate H;
    split; store_compute; reflexivity.
Qed.

(** X5: [save_config] raises nothing whatever the file system does; when
    the directory cannot be made or the file cannot be opened for writing
    the stored configuration stays as it was, and the failure shows only
    in the log. *)
Theorem save_config_never_raises (x : Store.io) (c : document)
    (d : Store.disk document) :
  exists d',
    Store.save_config dir x c d = (d', Val tt)
    /\ (Store.io_makedirs x <> None \/ Store.io_open_write x <> None ->
        Store.stored d' = Store.stored d
        /\ exists line, Store.journal d' = Store.journal d ++ [Log Err line]).
Proof.
  destruct d as [f j]. destruct x as [mk rd wr dp rm].
  store_compute.
  destruct mk, wr, dp; simpl; eexists;
    (split; [reflexivity|]); simpl; intros [H|H]; try congruence;
    (split; [reflexivity | eexists; reflexivity]).
Qed.

End StoreProperties.

(** X6: when the old file cannot be removed, [reset_config] still returns
    the defaults although nothing was reset: the file keeps the old
    configuration, and that is what the next [get_config] returns. *)
Theorem reset_config_may_not_reset (document : Type) (dflt c : document)
    (dir msg : string) (rd wr dp : option string) (j : list event) :
  let x := {| Store.io_makedirs := None; Store.io_open_read := rd;
              Store.io_open_write := wr; Store.io_dump := dp;
              Store.io_remove := Some msg |} in
  exists d',
    Store.reset_config dflt dir x {| Store.stored := Store.Holds c; Store.journal := j |}
    = (d', Val dflt)
    /\ Store.stored d' = Store.Holds c
    /\ Store.get_config dflt dir Store.works d' = (d', Val c).
Proof.
  eexists. split; [|split]; reflexivity.
Qed.

(** ** Authenticator *)

Example take_cuts_between_characters :
  take 2 "héllo" = "hé" /\ Py.len "héllo" = 5%nat.
Proof. split; reflexivity. Qed.



(** On ASCII text the characters are the bytes. *)
Lemma len_ascii (s : string) : is_ascii s = true -> Py.len s = String.length s.
Proof.
  induction s as [|a s IH]; simpl; [reflexivity|].
  intros H. apply andb_true_iff in H as [Ha Hs].
  unfold is_continuation. apply Nat.ltb_lt in Ha.
  destruct (Nat.leb_spec 128 (nat_of_ascii a)); [lia|]. simpl. now rewrite IH.
Qed.

(** [do_login_attempt], with the emitted message spelled out. *)
Lemma do_login_attempt_message (env : login_env) (w : world) (m : string) :
  has_credentials (le_cfg env) (heap w) = true ->
  Py.str_upper (default (PyStr "GET") (method (le_cfg env))) = Val m ->
  let cfg := le_cfg env in
  let sent := Py.set "v" (Py.str (le_millis env mod 10000)) (params_at cfg (heap w)) in
  let res := response_of (le_http env) in
  let success :=
    login_success (default "" (success_check_string cfg)) (rs_status res) (rs_body res) in
  exists line1 line2 lv line3 line4,
    runs (do_login env) w (heap w ++ [sent])
      ([Call "do_login"; Log Info line1; Log Info line2;
        Urlopen (request_for m (_build_login_url cfg) sent);
        Log lv line3; EmitLogin success (rs_status res) (login_message res) (le_now env)]
       ++ match le_emit env with
          | Val _ => [Log Info line4]
          | Exn _ => []
          end)
      (match le_emit env with
       | Val _ => Val {| lr_success := success; lr_status := rs_status res;
                         lr_body := Some (take 1024 (rs_body res));
                         lr_error := rs_error res |}
       | Exn e => Exn e
       end).
Proof.
  unfold has_credentials. intros H Hm. apply andb_true_iff in H as [Hid Hpw].
  cbv zeta.
  unfold runs, do_login, do_login_awaited, run_in_executor, bind, get_config, log, tell, ret, alloc, setitem, deref.
  simpl. rewrite params_of_eq. simpl. rewrite Hid, Hpw, Hm. simpl.
  rewrite alter_fresh, lookup_fresh. simpl.
  match goal with
  | |- context [_make_http_request ?a ?b ?c ?d ?e] =>
      destruct (make_http_request_runs a b c d e) as (l2 & lv & l3 & Hrq);
      unfold runs in Hrq; rewrite Hrq; clear Hrq
  end.
  simpl. rewrite lookup_fresh. simpl. fold (login_message (response_of (le_http env))).
  destruct (le_emit env) as [[]|e]; simpl; rewrite <- ?List.app_assoc; simpl.
  - do 5 eexists. reflexivity.
  - do 4 eexists. exists "". reflexivity.
Qed.

(** X7: [_make_http_request] raises nothing, however the request ends: it
    hands exactly one request to [urlopen], a GET or a POST whatever verb
    is asked for, with the [User-Agent] header and the 10 s timeout, leaves
    the parameters untouched, and reports an error (with an empty body)
    exactly when no response was received; a failure that is not an HTTP
    error has status -1. *)
Theorem make_http_request_sends_one_request (method url : string) (l : loc)
    (net : urlopen_outcome) (w : world) :
  exists w' res evs rq,
    _make_http_request method url l net w = (w', Val res)
    /\ heap w' = heap w
    /\ trace w' = trace w ++ evs
    /\ requests evs = [rq]
    /\ (rq_method rq = "GET" \/ rq_method rq = "POST")
    /\ In ("User-Agent", USER_AGENT) (rq_headers rq)
    /\ rq_timeout rq = HTTP_TIMEOUT
    /\ (rs_error res = None <-> exists status body, net = Responded status body)
    /\ (rs_error res <> None -> rs_body res = "")
    /\ (forall reason, net = URLError reason -> rs_status res = -1)
    /\ (forall kind msg, net = Failed kind msg -> rs_status res = -1).
Proof.
  destruct (make_http_request_runs method url l net w) as (l1 & lv & l2 & Hrun).
  unfold runs in Hrun. eexists _, _, _, _. split; [exact Hrun|]. simpl.
  split; [reflexivity|]. split; [reflexivity|]. split; [reflexivity|].
  unfold request_for.
  split; [destruct (String.eqb method "GET"); [now left | now right]|].
  split; [destruct (String.eqb method "GET"); simpl; auto|].
  split; [destruct (String.eqb method "GET"); reflexivity|].
  destruct net as [status body | code reason | reason | kind msg]; simpl;
    (split; [split; [try discriminate; intros _; eauto
                    | intros (st & bd & H); try discriminate H; reflexivity]|]);
    (split; [intros H; try reflexivity; now contradiction H|]);
    split; intros; try discriminate; reflexivity.
Qed.

(** X8: when the request fails without an HTTP status (an unreachable
    server, a timeout, any other exception), [do_login] returns a failure
    with status -1, an empty body and the error text, whatever success
    check is configured, and the [login_status] event it emits says the
    same. *)
Theorem do_login_transport_failure (env : login_env) (w : world) (m reason : string) :
  has_credentials (le_cfg env) (heap w) = true ->
  Py.str_upper (default (PyStr "GET") (method (le_cfg env))) = Val m ->
  le_emit env = Val tt ->
  le_http env = URLError reason \/ (exists kind, le_http env = Failed kind reason) ->
  exists w' r evs,
    do_login env w = (w', Val r)
    /\ lr_success r = false /\ lr_status r = -1
    /\ lr_body r = Some "" /\ lr_error r = Some reason
    /\ trace w' = trace w ++ evs
    /\ login_statuses evs = [(false, -1, str_or (Some reason) "")].
Proof.
  intros Hc Hm Hemit Hnet.
  destruct (do_login_attempt_message env w m Hc Hm) as (l1 & l2 & lv & l3 & l4 & Hrun).
  rewrite Hemit in Hrun. unfold runs in Hrun.
  eexists _, _, _. split; [exact Hrun|]. simpl.
  destruct Hnet as [-> | [kind ->]]; simpl; repeat split; reflexivity.
Qed.

(** With both credentials, a [do_login] that is cancelled while it waits
    for the request raises [CancelledError] without a [login_status]
    event; the request was handed to [urlopen] only if the call had
    begun to run. *)
Lemma do_login_cancelled (env : login_env) (how : executor_end) (w : world) (m : string) :
  has_credentials (le_cfg env) (heap w) = true ->
  Py.str_upper (default (PyStr "GET") (method (le_cfg env))) = Val m ->
  how <> Completed ->
  let cfg := le_cfg env in
  let sent := Py.set "v" (Py.str (le_millis env mod 10000)) (params_at cfg (heap w)) in
  exists evs,
    runs (do_login_awaited env how) w (heap w ++ [sent]) evs (Exn CancelledError)
    /\ login_statuses evs = []
    /\ requests evs
       = match how with
         | CancelledRunning => [request_for m (_build_login_url cfg) sent]
         | _ => []
         end.
Proof.
  unfold has_credentials. intros H Hm Hhow. apply andb_true_iff in H as [Hid Hpw].
  cbv zeta.
  unfold runs, do_login_awaited, run_in_executor, bind, get_config, log, tell, ret, raise,
    alloc, setitem, deref.
  simpl. rewrite params_of_eq. simpl. rewrite Hid, Hpw, Hm. simpl.
  rewrite alter_fresh, lookup_fresh. simpl.
  destruct how; [contradiction | |].
  - rewrite <- ?List.app_assoc. simpl. eexists. split; [reflexivity|]. split; reflexivity.
  - match goal with
    | |- context [_make_http_request ?a ?b ?c ?d ?e] =>
        destruct (make_http_request_runs a b c d e) as (l2 & lv & l3 & Hrq);
        unfold runs in Hrq; rewrite Hrq; clear Hrq
    end.
    simpl. rewrite ?lookup_fresh. simpl. rewrite <- ?List.app_assoc. simpl.
    eexists. split; [reflexivity|]. split; reflexivity.
Qed.

(** An early return does not reach the wait for the request. *)
Lemma do_login_awaited_skips (env : login_env) (how : executor_end) (w : world) :
  has_credentials (le_cfg env) (heap w) = false ->
  do_login_awaited env how w = do_login env w.
Proof.
  unfold has_credentials. intros H.
  unfold do_login, do_login_awaited, bind, get_config, log, tell, ret.
  simpl. rewrite params_of_eq. simpl.
  destruct (opt_truthy (Py.get "DDDDD" (params_at (le_cfg env) (heap w)))); simpl in *.
  - rewrite H. reflexivity.
  - reflexivity.
Qed.

(** X9: whenever [do_login] returns a result it has emitted
    [login_status] exactly once if it sent a request, with the success
    flag and the status of that result, and not at all if it returned
    early for a missing credential.  It returns a result unless it is
    cancelled while it waits for the request; then it raises
    [CancelledError] and emits no [login_status], whether or not the
    request went out.  No run emits more [login_status] events than
    requests were sent, and none sends more than one. *)
Theorem do_login_emits_what_it_returns (env : login_env) (how : executor_end) (w : world) :
  login_calm env = true ->
  exists w' out evs,
    do_login_awaited env how w = (w', out)
    /\ trace w' = trace w ++ evs
    /\ (length (login_statuses evs) <= length (requests evs) <= 1)%nat
    /\ (how = Completed \/ has_credentials (le_cfg env) (heap w) = false ->
        exists r, out = Val r)
    /\ (forall r, out = Val r ->
          (has_credentials (le_cfg env) (heap w) = false ->
           login_statuses evs = [] /\ requests evs = [])
          /\ (has_credentials (le_cfg env) (heap w) = true ->
              exists msg rq,
                login_statuses evs = [(lr_success r, lr_status r, msg)]
                /\ requests evs = [rq]))
    /\ (has_credentials (le_cfg env) (heap w) = true -> how <> Completed ->
        out = Exn CancelledError /\ login_statuses evs = []).
Proof.
  unfold login_calm. intros H. apply andb_true_iff in H as [Hm He].
  apply returns_val in Hm as [m Hm]. apply returns_val in He as [[] He].
  destruct (has_credentials (le_cfg env) (heap w)) eqn:Hc.
  - destruct how eqn:Ehow.
    + destruct (do_login_attempt_message env w m Hc Hm) as (l1 & l2 & lv & l3 & l4 & Hrun).
      rewrite He in Hrun. unfold runs in Hrun. fold (do_login env).
      eexists _, _, _. split; [exact Hrun|]. simpl.
      split; [reflexivity|]. split; [unfold login_statuses, requests; simpl; lia|]. split; [eauto|].
      split; [|intros _ Hn; now contradiction Hn].
      intros r [= <-]. split; [discriminate|].
      intros _. eexists _, _. split; reflexivity.
    + destruct (do_login_cancelled env CancelledQueued w m Hc Hm) as (evs & Hrun & Hl & Hr);
        [discriminate|].
      unfold runs in Hrun. eexists _, _, evs. split; [exact Hrun|]. simpl.
      rewrite Hl, Hr. simpl.
      split; [reflexivity|]. split; [unfold login_statuses, requests; simpl; lia|].
      split; [intros [Hn|Hn]; discriminate Hn|].
      split; [discriminate | intros _ _; split; reflexivity].
    + destruct (do_login_cancelled env CancelledRunning w m Hc Hm) as (evs & Hrun & Hl & Hr);
        [discriminate|].
      unfold runs in Hrun. eexists _, _, evs. split; [exact Hrun|]. simpl.
      rewrite Hl, Hr. simpl.
      split; [reflexivity|]. split; [unfold login_statuses, requests; simpl; lia|].
      split; [intros [Hn|Hn]; discriminate Hn|].
      split; [discriminate | intros _ _; split; reflexivity].
  - rewrite (do_login_awaited_skips env how w Hc).
    destruct (do_login_skips env w Hc) as (line & msg & Hrun & _).
    unfold runs in Hrun. eexists _, _, _. split; [exact Hrun|]. simpl.
    split; [reflexivity|]. split; [unfold login_statuses, requests; simpl; lia|]. split; [eauto|].
    split; [|discriminate].
    intros r [= <-]. split; [intros _; split; reflexivity | discriminate].
Qed.


(** ** Prober *)

(** X11: with a usable timeout setting, [test_ping] runs one probe against
    the configured target (8.8.8.8 when none is set) and returns its
    result, a success exactly when the ping exits with code 0; it emits
    one [ping_status] with that result and a failure count of 0, and it
    neither logs in nor sleeps. *)
Theorem test_ping_reports_probe (env : ping_env) (w : world) (t : Z) :
  setting (ping_timeout_sec (tp_cfg env)) 2 = Val t ->
  tp_ping env <> Exn CancelledError ->
  tp_emit env = Val tt ->
  exists w' r evs,
    test_ping env w = (w', Val r)
    /\ heap w' = heap w
    /\ trace w' = trace w ++ evs
    /\ pr_host r = str_or (ping_target (tp_cfg env)) DEFAULT_PING_TARGET
    /\ (pr_success r = true <-> tp_ping env = Val 0)
    /\ probes evs = 1%nat
    /\ ping_statuses evs = [(pr_success r, 0)]
    /\ calls "do_login" evs = 0%nat /\ sleeps evs = [] /\ requests evs = [].
Proof.
  intros Hset Hping Hemit.
  unfold test_ping, bind, get_config, int_setting, ret, tell. simpl.
  rewrite Hset. simpl.
  pose proof (run_ping_runs (str_or (ping_target (tp_cfg env)) DEFAULT_PING_TARGET)
                t (tp_ping env) w) as Hrun.
  unfold runs in Hrun. rewrite Hrun. clear Hrun. rewrite Hemit.
  destruct (tp_ping env) as [rc | [ | | kind msg]]; [| contradiction | |];
    simpl; rewrite <- ?List.app_assoc; eexists _, _, _;
    (split; [reflexivity|]); simpl;
    (split; [reflexivity|]); (split; [reflexivity|]); (split; [reflexivity|]);
    (split; [|repeat split; reflexivity]).
  - rewrite Z.eqb_eq. split; [now intros -> | now intros [= ->]].
  - split; discriminate.
  - split; discriminate.
Qed.

(** X12: a [ping_timeout_sec] holding a non-empty string of ASCII
    characters that spells no integer makes [test_ping] raise
    [ValueError] to its caller at once: nothing is probed, emitted or
    logged. *)
Theorem test_ping_rejects_bad_timeout (env : ping_env) (w : world) (s : string) :
  ping_timeout_sec (tp_cfg env) = Some (PyStr s) ->
  str_truthy s = true ->
  is_ascii s = true ->
  int_of_str s = None ->
  exists msg, test_ping env w = (w, Exn (Error "ValueError" msg)).
Proof.
  intros Hcfg Hs _ Hint.
  unfold test_ping, bind, get_config, int_setting, setting, or_else, ret. simpl.
  rewrite Hcfg. simpl. rewrite Hs. simpl. rewrite Hint. simpl.
  eexists. reflexivity.
Qed.

(** ** Monitor loop *)

Lemma login_events_quiet (evs : list event) :
  Forall (fun ev => is_login_event ev = true) evs ->
  ping_statuses evs = [] /\ probes evs = 0%nat /\ sleeps evs = [].
Proof.
  induction 1 as [|ev evs Hev _ (IH1 & IH2 & IH3)]; [repeat split|].
  unfold ping_statuses, probes, sleeps in *.
  destruct ev; try discriminate Hev; simpl; auto.
Qed.

(** A calm [do_login] adds only events of its own, at most one
    [login_status] and one request among them, and none of either on an
    early return. *)
Lemma do_login_calm_events (env : login_env) (w : world) :
  login_calm env = true ->
  exists h evs r,
    runs (do_login env) w h evs (Val r)
    /\ Forall (fun ev => is_login_event ev = true) evs
    /\ length (login_statuses evs) = length (requests evs)
    /\ length (requests evs)
       = (if has_credentials (le_cfg env) (heap w) then 1 else 0)%nat.
Proof.
  unfold login_calm. intros H. apply andb_true_iff in H as [Hm He].
  apply returns_val in Hm as [m Hm]. apply returns_val in He as [[] He].
  destruct (has_credentials (le_cfg env) (heap w)) eqn:Hc.
  - destruct (do_login_attempt_message env w m Hc Hm) as (l1 & l2 & lv & l3 & l4 & Hrun).
    rewrite He in Hrun. eexists _, _, _. split; [exact Hrun|].
    split; [repeat constructor | split; reflexivity].
  - destruct (do_login_skips env w Hc) as (line & msg & Hrun & _).
    eexists _, _, _. split; [exact Hrun|].
    split; [repeat constructor | split; reflexivity].
Qed.

(** One calm cycle with every event in its place: the probe, the status
    emit with its log lines, and, when remediation fires, the warning, the
    login and the backoff sleep; then the interval sleep. *)
Lemma monitor_cycle_calm_events (cf : Z) (env : cycle_env) (w : world) :
  calm env = true ->
  let cfg := ce_cfg env in
  let host := str_or (ping_target cfg) DEFAULT_PING_TARGET in
  exists h login_evs,
    runs (monitor_cycle cf env) w h
      (probe_events host (timeout_of cfg) (ce_ping env)
       ++ (if probe_ok (ce_ping env) then success_events host cf (ce_now env)
           else failure_events host cf (threshold_of cfg) (ce_now env)
                ++ (if cf + 1 >=? threshold_of cfg
                    then Log Warning "Failure threshold reached, attempting login"
                         :: login_evs ++ [Sleep (backoff_of cfg)]
                    else []))
       ++ [Sleep (interval_of cfg)])
      (Val (next_failures cf env))
    /\ Forall (fun ev => is_login_event ev = true) login_evs
    /\ (length (login_statuses login_evs) <= 1)%nat
    /\ length (login_statuses login_evs) = length (requests login_evs).
Proof.
  intros H. cbv zeta. unfold calm, settings_ok in H.
  repeat (apply andb_true_iff in H as [H ?]).
  repeat match goal with
         | Hr : returns _ = true |- _ => apply returns_val in Hr as [? Hr]
         end.
  set (cfg := ce_cfg env) in *.
  set (host := str_or (ping_target cfg) DEFAULT_PING_TARGET).
  unfold next_failures, interval_of, timeout_of, threshold_of, backoff_of, effective.
  fold cfg.
  unfold runs, monitor_cycle, bind, get_config, int_setting, ret. simpl. fold cfg host.
  repeat match goal with
         | Hs : setting _ _ = Val _ |- _ => rewrite !Hs; simpl; clear Hs
         end.
  match goal with
  | |- context [_run_ping ?a ?b ?c ?d] =>
      pose proof (run_ping_runs a b c d) as Hp; unfold runs in Hp; rewrite Hp; clear Hp
  end.
  match goal with
  | He : ce_emit env = _, Hb : ce_backoff_sleep env = _, Hi : ce_interval_sleep env = _
    |- _ => rewrite He, Hb, Hi; clear He Hb Hi
  end.
  destruct (ce_ping env) as [rc | [ | | kind msg]]; simpl in *; try discriminate.
  1: destruct (rc =? 0); simpl.
  1: { exists (heap w), []. unfold success_events. destruct (cf >? 0); simpl;
         rewrite <- ?List.app_assoc; repeat split; try constructor; reflexivity. }
  all: destruct (cf + 1 >=? x3); simpl.
  all: try (exists (heap w), []; unfold failure_events;
            rewrite <- ?List.app_assoc; repeat split; try constructor; reflexivity).
  all: match goal with
       | |- context [do_login ?e ?w0] =>
           destruct (do_login_calm_events e w0) as (h & evs & r & Hrun & Hall & Hlen & Hrq);
             [assumption|]; unfold runs in Hrun; rewrite Hrun; clear Hrun
       end.
  all: exists h, evs; simpl; unfold failure_events; rewrite <- ?List.app_assoc; simpl.
  all: repeat split; try assumption.
  all: rewrite Hlen, Hrq; destruct (has_credentials _ _); lia.
Qed.

Lemma ping_statuses_app (evs evs' : list event) :
  ping_statuses (evs ++ evs') = ping_statuses evs ++ ping_statuses evs'.
Proof. unfold ping_statuses. apply omap_app. Qed.

Lemma login_statuses_app (evs evs' : list event) :
  login_statuses (evs ++ evs') = login_statuses evs ++ login_statuses evs'.
Proof. unfold login_statuses. apply omap_app. Qed.

Lemma probe_events_only_probe (host : string) (timeout : Z) (proc : outcome Z) :
  probes (probe_events host timeout proc) = 1%nat
  /\ ping_statuses (probe_events host timeout proc) = []
  /\ login_statuses (probe_events host timeout proc) = []
  /\ requests (probe_events host timeout proc) = []
  /\ sleeps (probe_events host timeout proc) = [].
Proof. destruct proc as [rc | [ | | kind msg]]; repeat split; reflexivity. Qed.

Lemma log_is_silent (lv : level) (msg : string) (evs : list event) :
  probes (Log lv msg :: evs) = probes evs
  /\ ping_statuses (Log lv msg :: evs) = ping_statuses evs
  /\ login_statuses (Log lv msg :: evs) = login_statuses evs
  /\ requests (Log lv msg :: evs) = requests evs.
Proof. repeat split; reflexivity. Qed.

(** X13: every cycle in which nothing raises starts exactly one probe and
    emits exactly one [ping_status]: a success with count 0, or a failure
    with the count of consecutive failures including this one.  It emits
    at most one [login_status], and none, and no request, unless
    remediation fires. *)
Theorem monitor_cycle_reports_each_probe (cf : Z) (env : cycle_env) (w : world) :
  calm env = true ->
  0 <= cf ->
  exists w' cf' evs,
    monitor_cycle cf env w = (w', Val cf')
    /\ trace w' = trace w ++ evs
    /\ probes evs = 1%nat
    /\ ping_statuses evs
       = [(probe_ok (ce_ping env), if probe_ok (ce_ping env) then 0 else cf + 1)]
    /\ (length (login_statuses evs) <= 1)%nat
    /\ (fires cf env = false -> login_statuses evs = [] /\ requests evs = []).
Proof.
  intros Hcalm Hcf.
  destruct (monitor_cycle_calm_events cf env w Hcalm)
    as (h & login_evs & Hrun & Hall & Hone & Hsame).
  unfold runs in Hrun. eexists _, _, _. split; [exact Hrun|].
  split; [reflexivity|].
  destruct (probe_events_only_probe
              (str_or (ping_target (ce_cfg env)) DEFAULT_PING_TARGET)
              (timeout_of (ce_cfg env)) (ce_ping env)) as (Hp & Hps & Hls & Hrq & _).
  destruct (login_events_quiet login_evs Hall) as (Hlp & Hlpr & _).
  rewrite !probes_app, !ping_statuses_app, !login_statuses_app, !requests_app,
    Hp, Hps, Hls, Hrq.
  unfold fires. destruct (probe_ok (ce_ping env)); cbn [negb andb].
  - unfold success_events. destruct (Z.gtb_spec cf 0); simpl.
    + repeat split; try reflexivity; lia.
    + replace cf with 0 by lia. repeat split; try reflexivity; lia.
  - rewrite !probes_app, !ping_statuses_app, !login_statuses_app, !requests_app.
    destruct (cf + 1 >=? threshold_of (ce_cfg env)).
    + destruct (log_is_silent Warning "Failure threshold reached, attempting login"
                  (login_evs ++ [Sleep (backoff_of (ce_cfg env))]))
        as (-> & -> & -> & _).
      rewrite !probes_app, !ping_statuses_app, !login_statuses_app, Hlp, Hlpr.
      simpl. rewrite !app_nil_r.
      repeat split; try reflexivity; lia.
    + simpl. repeat split; try reflexivity. lia.
Qed.

Lemma unset_setting (field : option pyval) (d : Z) :
  unset field = true -> effective field d = d.
Proof.
  unfold unset, effective, setting, or_else. destruct field as [v|]; simpl.
  - intros H. apply negb_true_iff in H. now rewrite H.
  - intros _. now destruct (negb (d =? 0)).
Qed.

(** X14: a setting that is missing or falsy ([null], [0], [""], [false])
    counts as not set: a cycle in which nothing raises then probes with
    [-W 2] and a deadline of 3 s, fires remediation at the third failure in
    a row, and sleeps 60 s (after a remediation 60 s and again 60 s). *)
Theorem unset_settings_use_defaults (cf : Z) (env : cycle_env) (w : world) :
  calm env = true ->
  unset (ping_interval_sec (ce_cfg env)) = true ->
  unset (ping_timeout_sec (ce_cfg env)) = true ->
  unset (consecutive_failures_threshold (ce_cfg env)) = true ->
  unset (backoff_attempt_sec (ce_cfg env)) = true ->
  let host := str_or (ping_target (ce_cfg env)) DEFAULT_PING_TARGET in
  exists w' cf' rest,
    monitor_cycle cf env w = (w', Val cf')
    /\ trace w' = trace w ++ Exec ["ping"; "-c"; "1"; "-W"; Py.str 2; host] 3 :: rest
    /\ fires cf env = negb (probe_ok (ce_ping env)) && (cf + 1 >=? 3)
    /\ sleeps rest = if fires cf env then [60; 60] else [60].
Proof.
  intros Hcalm Hi Ht Hth Hb host.
  destruct (monitor_cycle_calm cf env w Hcalm) as (h & mid & Hrun & _ & Hs & _).
  destruct (probe_events_quiet host (timeout_of (ce_cfg env)) (ce_ping env))
    as (argv & dl & logs & Hev & _ & Hls & _).
  fold host in Hrun. rewrite Hev in Hrun.
  unfold probe_events in Hev. injection Hev as <- <- _.
  unfold fires, interval_of, timeout_of, threshold_of, backoff_of in *.
  rewrite (unset_setting _ _ Hi), (unset_setting _ _ Ht), (unset_setting _ _ Hth),
    (unset_setting _ _ Hb) in *.
  unfold runs in Hrun. eexists _, _, _. split; [exact Hrun|]. simpl.
  split; [reflexivity|]. split; [reflexivity|].
  rewrite !sleeps_app, Hls, Hs.
  destruct (negb (probe_ok (ce_ping env)) && (cf + 1 >=? 3)); reflexivity.
Qed.

(** X15: when a cycle is cancelled (at the ping, an emit, the login or a
    sleep), the monitor logs that it was cancelled and returns without
    raising: it does not pause, and the cycles that would follow are never
    run. *)
Theorem ping_monitor_cancelled (pre : list cycle_env) (bad : cycle_env)
    (post : list cycle_env) (pause : outcome unit) (w : world)
    (h1 : list dict) (evs1 : list event) (cf : Z)
    (h2 : list dict) (evs2 : list event) :
  let started := [Log Info "Ping monitor task started"] in
  runs (monitor_loop 0 pre) {| heap := heap w; trace := trace w ++ started |}
    h1 evs1 (Val cf) ->
  runs (monitor_cycle cf bad) {| heap := h1; trace := (trace w ++ started) ++ evs1 |}
    h2 evs2 (Exn CancelledError) ->
  runs (_ping_monitor (pre ++ bad :: post) pause) w h2
    (started ++ evs1 ++ evs2 ++ [Log Info "Ping monitor cancelled"])
    (Val Returned).
Proof.
  intros started Hpre Hbad. unfold runs in *. simpl in *.
  unfold _ping_monitor, bind, log, tell, try_except. simpl. fold started.
  rewrite monitor_loop_app. unfold bind at 1. rewrite Hpre.
  simpl. unfold bind at 1. rewrite Hbad. simpl.
  rewrite <- !List.app_assoc. reflexivity.
Qed.

(** X19: a [ping_interval_sec] holding a non-empty string of ASCII
    characters that spells no integer ends the monitor in the first cycle
    that reads it, before any probe: the error is logged, the task sleeps
    5 s and returns, and the cycles that would follow are never run. *)
Theorem bad_interval_ends_monitor (bad : cycle_env) (post : list cycle_env)
    (w : world) (s : string) :
  ping_interval_sec (ce_cfg bad) = Some (PyStr s) ->
  str_truthy s = true ->
  is_ascii s = true ->
  int_of_str s = None ->
  exists line,
    _ping_monitor (bad :: post) (Val tt) w
    = ({| heap := heap w;
          trace := trace w ++ [Log Info "Ping monitor task started";
                               Log Err line; Sleep 5] |},
       Val Returned).
Proof.
  intros Hcfg Hs _ Hint.
  unfold _ping_monitor, try_except, bind, log, tell. simpl.
  unfold bind, monitor_cycle, bind, get_config, int_setting, setting, or_else, ret.
  simpl. rewrite Hcfg. simpl. rewrite Hs. simpl. rewrite Hint. simpl.
  rewrite <- !List.app_assoc. eexists. reflexivity.
Qed.

(** ** Controller *)

(** X16: in every state the plugin can reach through start and unload
    calls and tasks finishing, [is_monitor_running] holds exactly when a
    monitor task is alive; once the task of the handle has finished it is
    false, although the monitor was started and the handle is still set. *)
Theorem is_monitor_running_iff_alive (ops : list op) :
  (is_monitor_running (run ops) = true <-> active (run ops) = 1%nat)
  /\ (forall h, _monitor_task (run ops) = Some h ->
        is_monitor_running (run (ops ++ [Exit h])) = false
        /\ _monitor_task (run (ops ++ [Exit h])) = Some h).
Proof.
  split.
  - rewrite (settled_active _ (settled_run ops)).
    destruct (is_monitor_running (run ops)); split; intros H; try reflexivity;
      discriminate.
  - intros h Hh. unfold run. rewrite fold_left_app. simpl. fold (run ops).
    unfold is_monitor_running. simpl. rewrite Hh, list_lookup_alter_eq.
    split; [|reflexivity]. now destruct (tasks (run ops) !! h).
Qed.

Lemma settled_handle (p : plugin) (h : nat) :
  settled p -> _monitor_task p = Some h ->
  exists l t, tasks p = l ++ [t] /\ Forall (fun t' => done t' = true) l
              /\ h = length l.
Proof.
  intros [[_ Hnone] | (l & t & Ht & Hl & Hh)] Hsome; [congruence|].
  exists l, t. repeat split; [exact Ht | exact Hl | congruence].
Qed.

(** Changing one task changes the count of the tasks not done by what
    that task contributes. *)
Lemma alive_alter (f : task -> task) (h : nat) (ts : list task) (t : task) :
  ts !! h = Some t ->
  (length (List.filter (fun t' => negb (done t')) (alter f h ts))
   + (if done t then 0 else 1)
   = length (List.filter (fun t' => negb (done t')) ts)
     + (if done (f t) then 0 else 1))%nat.
Proof.
  revert h. induction ts as [|x ts IH]; intros [|h] H; try discriminate H.
  - injection H as ->. cbn. destruct (done t), (done (f t)); simpl; lia.
  - specialize (IH h H). cbn. cbn in IH. destruct (done x); simpl; lia.
Qed.

Lemma done_cancel (t : task) : done (cancel t) = done t.
Proof. now destruct t. Qed.

(** Starting with no running monitor of the handle adds one live task. *)
Lemma start_adds_one (p : plugin) :
  is_monitor_running p = false ->
  is_monitor_running (fst (start_ping_monitor p)) = true
  /\ active (fst (start_ping_monitor p)) = S (active p)
  /\ tasks (fst (start_ping_monitor p)) = tasks p ++ [Pending].
Proof.
  intros Hrun. unfold start_ping_monitor. rewrite Hrun. simpl.
  unfold is_monitor_running, active. simpl.
  rewrite lookup_fresh, List.filter_app, length_app. simpl.
  repeat split; lia.
Qed.

(** X17: in any state of the plugin, a [stop_ping_monitor] call during
    which the task of the handle meets its cancellation and nothing else
    happens clears the handle and leaves that task done and every other
    task as it was: [is_monitor_running] is false, and the monitors alive
    are those that were, less the one of the handle (so none, if no other
    was alive).  A [start_ping_monitor] after it starts one new monitor.
    Without a handle the call changes nothing. *)
Theorem stop_then_start :
  (forall (p : plugin) (h : nat) (t : task),
     _monitor_task p = Some h -> tasks p !! h = Some t ->
     exists p',
       stop_ping_monitor p [Exit h] = Some p'
       /\ _monitor_task p' = None
       /\ is_monitor_running p' = false
       /\ tasks p' !! h = Some Finished
       /\ (forall k, k <> h -> tasks p' !! k = tasks p !! k)
       /\ active p' = (active p - (if done t then 0 else 1))%nat
       /\ (active p = (if done t then 0 else 1)%nat -> active p' = 0%nat)
       /\ is_monitor_running (fst (start_ping_monitor p')) = true
       /\ active (fst (start_ping_monitor p')) = S (active p'))
  /\ (forall (p : plugin) (meanwhile : list op),
        _monitor_task p = None -> stop_ping_monitor p meanwhile = Some p).
Proof.
  split.
  - intros p h t Hh Ht.
    set (p' := {| loop := loop p; _monitor_task := None;
                  tasks := alter (fun _ => Finished) h (alter cancel h (tasks p)) |}).
    exists p'. split.
    { unfold stop_ping_monitor, stop_begin, awaited_done. rewrite Hh. simpl.
      rewrite !list_lookup_alter_eq, Ht. reflexivity. }
    assert (Hidle : is_monitor_running p' = false) by reflexivity.
    assert (Hact : active p' = (active p - (if done t then 0 else 1))%nat).
    { unfold active, p'. simpl.
      assert (Hc : alter cancel h (tasks p) !! h = Some (cancel t)).
      { now rewrite list_lookup_alter_eq, Ht. }
      pose proof (alive_alter (fun _ => Finished) h _ _ Hc) as H1.
      pose proof (alive_alter cancel h _ _ Ht) as H2.
      rewrite done_cancel in H1, H2. simpl in H1. lia. }
    destruct (start_adds_one p' Hidle) as (Hrun & Hone & _).
    split; [reflexivity|]. split; [exact Hidle|].
    split; [unfold p'; simpl; now rewrite !list_lookup_alter_eq, Ht|].
    split; [intros k Hk; unfold p'; simpl; now rewrite !list_lookup_alter_ne by congruence|].
    split; [exact Hact|]. split; [lia|]. split; [exact Hrun | exact Hone].
  - intros p meanwhile Hnone. unfold stop_ping_monitor, stop_begin. now rewrite Hnone.
Qed.

(** X18: [stop_ping_monitor] clears the handle when it resumes, whatever
    the handle then is.  If a [start_ping_monitor] call runs after the
    cancelled task has finished and before the stop call resumes, the
    monitor it starts stays alive without a handle: [is_monitor_running] is
    false, and the next start creates a second monitor beside it. *)
Theorem stop_racing_start_orphans_a_monitor (ops : list op) (h : nat) :
  _monitor_task (run ops) = Some h ->
  is_monitor_running (run ops) = true ->
  exists p',
    stop_ping_monitor (run ops) [Exit h; Start] = Some p'
    /\ _monitor_task p' = None
    /\ is_monitor_running p' = false
    /\ active p' = 1%nat
    /\ active (fst (start_ping_monitor p')) = 2%nat.
Proof.
  intros Hh _.
  destruct (settled_handle _ h (settled_run ops) Hh) as (l & t & Ht & Hl & ->).
  assert (Hstart : forall lp,
    start_ping_monitor
      {| loop := lp; _monitor_task := Some (length l); tasks := l ++ [Finished] |}
    = ({| loop := true; _monitor_task := Some (length (l ++ [Finished]));
          tasks := (l ++ [Finished]) ++ [Pending] |},
       [Log Info "Ping monitor started"])).
  { intros lp. unfold start_ping_monitor, is_monitor_running. simpl.
    now rewrite lookup_fresh. }
  unfold stop_ping_monitor, stop_begin, awaited_done. rewrite Hh. simpl.
  rewrite Ht, !alter_fresh, Hstart. simpl.
  rewrite (lookup_app_l_Some _ _ _ _ (lookup_fresh l Finished)). simpl.
  eexists. split; [reflexivity|]. simpl.
  unfold active, is_monitor_running, start_ping_monitor, is_monitor_running. simpl.
  rewrite !List.filter_app, !length_app, (filter_done l Hl). simpl.
  repeat split; reflexivity.
Qed.

(** X20: in any state of the plugin, [_unload] only asks the monitor of
    the handle to cancel: the call itself neither ends nor starts a task,
    keeps the handle and touches no other task, and once the task of the
    handle has met the cancellation [is_monitor_running] is false and the
    monitors alive are those that were, less that one (so none, if no
    other was alive). *)
Theorem unload_cancels_the_monitor (p : plugin) :
  active (fst (_unload p)) = active p
  /\ _monitor_task (fst (_unload p)) = _monitor_task p
  /\ length (tasks (fst (_unload p))) = length (tasks p)
  /\ is_monitor_running (fst (_unload p)) = is_monitor_running p
  /\ (forall k, _monitor_task p <> Some k ->
        tasks (fst (_unload p)) !! k = tasks p !! k)
  /\ (forall h t, _monitor_task p = Some h -> tasks p !! h = Some t ->
        tasks (fst (_unload p)) !! h = Some (cancel t)
        /\ is_monitor_running (step (fst (_unload p)) (Exit h)) = false
        /\ active (step (fst (_unload p)) (Exit h))
           = (active p - (if done t then 0 else 1))%nat
        /\ (active p = (if done t then 0 else 1)%nat ->
            active (step (fst (_unload p)) (Exit h)) = 0%nat)).
Proof.
  assert (Hact : active (fst (_unload p)) = active p).
  { unfold _unload. destruct (is_monitor_running p) eqn:Hrun; [|reflexivity].
    unfold is_monitor_running in Hrun. unfold active. simpl.
    destruct (_monitor_task p) as [h|]; [|reflexivity].
    destruct (tasks p !! h) as [t|] eqn:Ht; [|discriminate].
    pose proof (alive_alter cancel h _ _ Ht) as H. rewrite done_cancel in H. lia. }
  assert (Hlook : forall h t, _monitor_task p = Some h -> tasks p !! h = Some t ->
            tasks (fst (_unload p)) !! h = Some (cancel t)).
  { intros h t Hh Ht. unfold _unload, is_monitor_running. rewrite Hh, Ht.
    destruct t; simpl; rewrite ?list_lookup_alter_eq, Ht; reflexivity. }
  split; [exact Hact|].
  split; [unfold _unload; destruct (is_monitor_running p); reflexivity|].
  split.
  { unfold _unload. destruct (is_monitor_running p); [|reflexivity]. simpl.
    destruct (_monitor_task p); [apply length_alter | reflexivity]. }
  split.
  { unfold is_monitor_running at 1 2.
    replace (_monitor_task (fst (_unload p))) with (_monitor_task p)
      by (unfold _unload; destruct (is_monitor_running p); reflexivity).
    destruct (_monitor_task p) as [h|] eqn:Hh; [|reflexivity].
    destruct (tasks p !! h) as [t|] eqn:Ht.
    - rewrite (Hlook h t eq_refl Ht), done_cancel. reflexivity.
    - unfold _unload, is_monitor_running. rewrite Hh, Ht. simpl. now rewrite Ht. }
  split.
  { intros k Hk. unfold _unload. destruct (is_monitor_running p); [|reflexivity]. simpl.
    destruct (_monitor_task p) as [h|]; [|reflexivity].
    apply list_lookup_alter_ne. congruence. }
  intros h t Hh Ht. split; [exact (Hlook h t Hh Ht)|].
  assert (Hexit : active (step (fst (_unload p)) (Exit h))
                  = (active p - (if done t then 0 else 1))%nat).
  { pose proof (alive_alter (fun _ => Finished) h _ _ (Hlook h t Hh Ht)) as H.
    rewrite done_cancel in H. simpl in H.
    unfold active in *. simpl. lia. }
  split; [|split; [exact Hexit | lia]].
  unfold is_monitor_running. simpl.
  replace (_monitor_task (fst (_unload p))) with (_monitor_task p)
    by (unfold _unload; destruct (is_monitor_running p); reflexivity).
  rewrite Hh, list_lookup_alter_eq, (Hlook h t Hh Ht). reflexivity.
Qed.

(** ** The further theorems at concrete inputs *)

Lemma do_login_transport_failure_witness :
  exists w' r,
    do_login unreachable_attempt portal = (w', Val r)
    /\ lr_success r = false /\ lr_status r = -1 /\ lr_error r = Some "timed out".
Proof.
  destruct (do_login_transport_failure unreachable_attempt portal "POST" "timed out")
    as (w' & r & evs & Hrun & H1 & H2 & _ & H4 & _); try reflexivity.
  - left. reflexivity.
  - exists w', r. repeat split; assumption.
Defined.

Lemma do_login_emits_what_it_returns_witness :
  exists w' r evs,
    do_login_awaited post_attempt Completed portal = (w', Val r)
    /\ trace w' = trace portal ++ evs
    /\ exists msg, login_statuses evs = [(lr_success r, lr_status r, msg)].
Proof.
  destruct (do_login_emits_what_it_returns post_attempt Completed portal eq_refl)
    as (w' & out & evs & Hrun & Htr & _ & Hret & Hval & _).
  destruct (Hret (or_introl eq_refl)) as [r ->].
  destruct (Hval r eq_refl) as [_ Hsent].
  destruct (Hsent eq_refl) as (msg & rq & Hst & _).
  exists w', r, evs. repeat split; try assumption. exists msg. exact Hst.
Defined.


Lemma test_ping_reports_probe_witness :
  exists w' r evs,
    test_ping test_env portal = (w', Val r)
    /\ trace w' = trace portal ++ evs
    /\ ping_statuses evs = [(pr_success r, 0)].
Proof.
  destruct (test_ping_reports_probe test_env portal 2 eq_refl)
    as (w' & r & evs & Hrun & _ & Htr & _ & _ & _ & Hst & _);
    [discriminate | reflexivity |].
  exists w', r, evs. repeat split; assumption.
Defined.

Lemma test_ping_rejects_bad_timeout_witness :
  exists msg,
    test_ping {| tp_cfg := fast_timeout_config; tp_ping := Val 0;
                 tp_now := 1700000012; tp_emit := Val tt |} portal
    = (portal, Exn (Error "ValueError" msg)).
Proof.
  exact (test_ping_rejects_bad_timeout
           {| tp_cfg := fast_timeout_config; tp_ping := Val 0;
              tp_now := 1700000012; tp_emit := Val tt |} portal "fast"
           eq_refl eq_refl eq_refl eq_refl).
Defined.

Lemma monitor_cycle_reports_each_probe_witness :
  exists w' cf' evs,
    monitor_cycle 2 (down 1124) portal = (w', Val cf')
    /\ trace w' = trace portal ++ evs
    /\ ping_statuses evs = [(false, 3)].
Proof.
  destruct (monitor_cycle_reports_each_probe 2 (down 1124) portal eq_refl)
    as (w' & cf' & evs & Hrun & Htr & _ & Hst & _); [lia|].
  exists w', cf', evs. repeat split; assumption.
Defined.

Lemma unset_settings_use_defaults_witness :
  exists w' cf' rest,
    monitor_cycle 2 (cycle_at untimed_config (Val 1) 1124) portal = (w', Val cf')
    /\ trace w' = trace portal ++ Exec ["ping"; "-c"; "1"; "-W"; "2"; "8.8.8.8"] 3 :: rest
    /\ sleeps rest = [60; 60].
Proof.
  destruct (unset_settings_use_defaults 2 (cycle_at untimed_config (Val 1) 1124) portal
              eq_refl eq_refl eq_refl eq_refl eq_refl)
    as (w' & cf' & rest & Hrun & Htr & _ & Hsl).
  exists w', cf', rest. repeat split; assumption.
Defined.

Lemma ping_monitor_cancelled_witness :
  exists h evs,
    runs (_ping_monitor [down 1000; cancelled_asleep 1062; down 1124] (Val tt)) portal
      h evs (Val Returned).
Proof.
  eexists _, _.
  eapply (ping_monitor_cancelled [down 1000] (cancelled_asleep 1062) [down 1124]
            (Val tt) portal); unfold runs; vm_compute; reflexivity.
Defined.

Lemma bad_interval_ends_monitor_witness :
  exists line,
    _ping_monitor [soon 1000; down 1062; down 1124] (Val tt) portal
    = ({| heap := heap portal;
          trace := trace portal ++ [Log Info "Ping monitor task started";
                                    Log Err line; Sleep 5] |},
       Val Returned).
Proof.
  exact (bad_interval_ends_monitor (soon 1000) [down 1062; down 1124] portal "soon"
           eq_refl eq_refl eq_refl eq_refl).
Defined.

Lemma stop_racing_start_orphans_a_monitor_witness :
  exists p',
    stop_ping_monitor (run [Start]) [Exit 0%nat; Start] = Some p'
    /\ is_monitor_running p' = false
    /\ active (fst (start_ping_monitor p')) = 2%nat.
Proof.
  destruct (stop_racing_start_orphans_a_monitor [Start] 0%nat eq_refl eq_refl)
    as (p' & Hstop & _ & Hrun & _ & Htwo).
  exists p'. repeat split; assumption.
Defined.
